(** * cell: a selective-subscription state container

    A shallow embedding of the [cell] function of vivekmunde/cell and of the
    part of the pusu publish/subscribe package it calls, followed by the
    properties of the container's update/notify protocol.

    Layout of the development:
    - [Val], [typeof], [truthy], [strict_eq]: the JavaScript values the
      container stores and compares;
    - [fn], [arg]: user supplied functions and untyped call arguments;
    - [M]: state, exceptions and a trace of what leaves the container;
    - [pusu]: the publish/subscribe collaborator;
    - [Part001], [IndexFirst], [IndexSecond]: the three variants of [cell];
    - [op], [run]: a client calling the container of part_001;
    - [Reentrant]: the container of part_001 once more, for subscribers
      that call [update] from inside their invocation;
    - the definitions the statements are written with;
    - the theorems, by operation: dispatch, subscribe, a subscriber of the
      whole state, the two state variables, update, unsubscribe, the three
      variants, further properties of update and subscribe, creation and
      what is never emitted, subscribers that call back, and the agreement
      of the two embeddings of part_001 on subscribers that do not. *)

From Stdlib Require Import List String ZArith Bool Arith Lia.
Import ListNotations.
Local Open Scope string_scope.
Local Open Scope list_scope.

Set Implicit Arguments.
Set Warnings "-register-all".

(* ===================================================================== *)
(** * JavaScript values *)
(* ===================================================================== *)

(** The values a state, a selected state or a stray argument can be.
    Numbers are the integers and NaN; symbols, objects and arrays carry the
    address that gives them their identity. Functions are kept apart, in
    [arg], because they are the values the container calls. *)
Inductive Val : Type :=
| VUndefined
| VNull
| VBoolean (b : bool)
| VNumber (n : Z)
| VNaN
| VString (s : string)
| VSymbol (addr : nat)
| VObject (addr : nat) (props : list (string * Val))
| VArray (addr : nat) (elems : list Val).

(** [typeof v] for a value that is not a function. *)
Definition typeof (v : Val) : string :=
  match v with
  | VUndefined => "undefined"
  | VNull => "object"
  | VBoolean _ => "boolean"
  | VNumber _ | VNaN => "number"
  | VString _ => "string"
  | VSymbol _ => "symbol"
  | VObject _ _ | VArray _ _ => "object"
  end.

(** ToBoolean: what [v && ...] and [v ? ... : ...] test. *)
Definition truthy (v : Val) : bool :=
  match v with
  | VUndefined | VNull | VNaN => false
  | VBoolean b => b
  | VNumber n => negb (Z.eqb n 0)
  | VString s => negb (String.eqb s "")
  | VSymbol _ | VObject _ _ | VArray _ _ => true
  end.

(** [a === b]: primitives by value (NaN equal to nothing), symbols, objects
    and arrays by address. *)
Definition strict_eq (a b : Val) : bool :=
  match a, b with
  | VUndefined, VUndefined => true
  | VNull, VNull => true
  | VBoolean x, VBoolean y => Bool.eqb x y
  | VNumber x, VNumber y => Z.eqb x y
  | VString x, VString y => String.eqb x y
  | VSymbol x, VSymbol y => Nat.eqb x y
  | VObject x _, VObject y _ => Nat.eqb x y
  | VArray x _, VArray y _ => Nat.eqb x y
  | _, _ => false
  end.

(** What a throw statement can carry. *)
Inductive exn : Type :=
| JsError (message : string)       (* new Error(message) *)
| JsTypeError (message : string)   (* raised by the runtime *)
| Thrown (v : Val).                (* throw v, in user code *)

(** How a call ends. *)
Inductive outcome (A : Type) : Type :=
| Ret (a : A)
| Throw (e : exn).
Arguments Ret {A} a.
Arguments Throw {A} e.

(* ===================================================================== *)
(** * User functions and call arguments *)
(* ===================================================================== *)

(** A function object: its identity and what a call to it does. *)
Record fn (B : Type) : Type := mkFn { fid : nat; body : B }.

(** An argument of an untyped call: a function, or any other value
    ([Data VUndefined] when the argument is left out). *)
Inductive arg (B : Type) : Type :=
| Fn (f : fn B)
| Data (v : Val).
Arguments Fn {B} f.
Arguments Data {B} v.

Definition typeof_arg {B} (a : arg B) : string :=
  match a with
  | Fn _ => "function"
  | Data v => typeof v
  end.

Definition truthy_arg {B} (a : arg B) : bool :=
  match a with
  | Fn _ => true
  | Data v => truthy v
  end.

(** What a call of user code does: it returns or it throws, as a function of
    its arguments. A subscriber that calls back into the container it is
    called from (one that calls [update]) is modelled apart, in
    [Reentrant]. *)
Definition Subscriber : Type := Val -> outcome unit.
Definition Selector : Type := Val -> outcome Val.
Definition IsEqual : Type := Val -> Val -> outcome bool.
Definition Reducer : Type := Val -> outcome Val.

(** The five actions of the log type the repository declares (TLogAction). *)
Inductive action : Type :=
| ActCreate | ActUpdate | ActSubscribe | ActUnsubscribe | ActNotify.

(** A record for a log sink, as the repository's declarations describe it
    (TLog): [{ containerName, action, state: { current, previous,
    selected? }, meta? }]; [selected] holds (previous, current), [meta] the
    identity of the subscriber. *)
Record log_event : Type := mkLog {
  containerName : string;
  log_action : action;
  log_current : Val;
  log_previous : Val;
  log_selected : option (Val * Val);
  log_meta : option nat
}.

(** What leaves the container, in the order it happens: the calls to user
    code, the topics it creates and the broadcasts it hands to pusu, and the
    records it gives the log sink. *)
Inductive event : Type :=
| CallSubscriber (f : nat) (selected : Val)
| CallSelector (f : nat) (state : Val)
| CallIsEqual (f : nat) (current previous : Val)
| CallReducer (f : nat) (state : Val)
| CreateTopic (name : Val)
| Publish (state : Val)
| Log (e : log_event).

(* ===================================================================== *)
(** * The monad: state, exceptions, trace *)
(* ===================================================================== *)

Section Monad.
Variable St : Type.

(** A computation over the mutable variables [St]: its outcome, the
    variables when it ended (assignments made before a throw stay made)
    and the events it produced. *)
Definition M (A : Type) : Type := St -> outcome A * St * list event.

Definition ret {A} (a : A) : M A := fun s => (Ret a, s, []).

Definition bind {A B} (m : M A) (k : A -> M B) : M B :=
  fun s =>
    match m s with
    | (Ret a, s1, t1) =>
        match k a s1 with
        | (o, s2, t2) => (o, s2, t1 ++ t2)
        end
    | (Throw e, s1, t1) => (Throw e, s1, t1)
    end.

Definition throw {A} (e : exn) : M A := fun s => (Throw e, s, []).
Definition emit (ev : event) : M unit := fun s => (Ret tt, s, [ev]).
Definition get : M St := fun s => (Ret s, s, []).
Definition put (s' : St) : M unit := fun _ => (Ret tt, s', []).

(** The result of user code enters the computation. *)
Definition lift {A} (o : outcome A) : M A := fun s => (o, s, []).
End Monad.

Arguments ret {St A} a.
Arguments bind {St A B} m k.
Arguments throw {St A} e.
Arguments emit {St} ev.
Arguments get {St}.
Arguments put {St} s'.
Arguments lift {St A} o.

Declare Scope js_scope.
Delimit Scope js_scope with js.
Notation "x <- m ;; k" := (bind m (fun x => k))
  (at level 61, m at next level, right associativity) : js_scope.
Notation "m ;; k" := (bind m (fun _ => k))
  (at level 61, right associativity) : js_scope.
Local Open Scope js_scope.

Definition out {St A} (r : outcome A * St * list event) : outcome A := fst (fst r).
Definition st {St A} (r : outcome A * St * list event) : St := snd (fst r).
Definition trace {St A} (r : outcome A * St * list event) : list event := snd r.

(** Calling [f(x)] where [f] may be anything: a value that is not a function
    makes the runtime raise a TypeError at the call. *)
Definition not_a_function (what : string) : exn :=
  JsTypeError (String.append what " is not a function").

Section Calls.
Variable St : Type.

Definition call_subscriber (f : arg Subscriber) (v : Val) : M St unit :=
  match f with
  | Fn g => emit (CallSubscriber (fid g) v) ;; lift (body g v)
  | Data _ => throw (not_a_function "subscriber")
  end.

Definition call_selector (f : arg Selector) (v : Val) : M St Val :=
  match f with
  | Fn g => emit (CallSelector (fid g) v) ;; lift (body g v)
  | Data _ => throw (not_a_function "selector")
  end.

(** The three variants all call the policy as [fnIsEqual(...)]. *)
Definition call_isEqual (f : arg IsEqual) (a b : Val) : M St bool :=
  match f with
  | Fn g => emit (CallIsEqual (fid g) a b) ;; lift (body g a b)
  | Data _ => throw (not_a_function "fnIsEqual")
  end.

Definition call_reducer (f : arg Reducer) (v : Val) : M St Val :=
  match f with
  | Fn g => emit (CallReducer (fid g) v) ;; lift (body g v)
  | Data _ => throw (not_a_function "reducer")
  end.

(** [selector ? selector(x) : x] *)
Definition select (selector : arg Selector) (x : Val) : M St Val :=
  if truthy_arg selector then call_selector selector x else ret x.

(** [isEqual ? isEqual : (a, b) => a === b], applied. *)
Definition compare (isEqual : arg IsEqual) (a b : Val) : M St bool :=
  if truthy_arg isEqual then call_isEqual isEqual a b else ret (strict_eq a b).
End Calls.

Arguments call_subscriber {St} f v.
Arguments call_selector {St} f v.
Arguments call_isEqual {St} f a b.
Arguments call_reducer {St} f v.
Arguments select {St} selector x.
Arguments compare {St} isEqual a b.

(* ===================================================================== *)
(** * Reading a trace *)
(* ===================================================================== *)

(** The values subscriber [f] was invoked with, in order. *)
Fixpoint invocations (f : nat) (t : list event) : list Val :=
  match t with
  | [] => []
  | CallSubscriber g v :: rest =>
      if Nat.eqb g f then v :: invocations f rest else invocations f rest
  | _ :: rest => invocations f rest
  end.

(** The calls to equality policies in a trace. *)
Fixpoint isEqual_calls (t : list event) : nat :=
  match t with
  | [] => 0
  | CallIsEqual _ _ _ :: rest => S (isEqual_calls rest)
  | _ :: rest => isEqual_calls rest
  end.

(** The states a trace shows handed to reducers. *)
Fixpoint reducer_calls (t : list event) : list (nat * Val) :=
  match t with
  | [] => []
  | CallReducer f s :: rest => (f, s) :: reducer_calls rest
  | _ :: rest => reducer_calls rest
  end.

(** The states a trace shows broadcast. *)
Fixpoint published (t : list event) : list Val :=
  match t with
  | [] => []
  | Publish s :: rest => s :: published rest
  | _ :: rest => published rest
  end.

(** The records a trace shows given to the log sink. *)
Fixpoint logs (t : list event) : list log_event :=
  match t with
  | [] => []
  | Log e :: rest => e :: logs rest
  | _ :: rest => logs rest
  end.

(** The topics a trace shows created. *)
Fixpoint topics (t : list event) : list Val :=
  match t with
  | [] => []
  | CreateTopic n :: rest => n :: topics rest
  | _ :: rest => topics rest
  end.

(* ===================================================================== *)
(** * pusu, the publish/subscribe collaborator *)
(* ===================================================================== *)

Module pusu.
(** Modelled from the spec: the pusu package is an external collaborator
    and is not part of the repository. The spec (External interfaces)
    asks of it: createTopic(name) -> Topic; subscribe(topic, handler) ->
    unsubscribeHandle; publish(topic, value), which "delivers
    synchronously to all currently-registered handlers, in registration
    order"; and that a repeated removal is a no-op. A registration is
    identified by a key that is never reused. *)
Record publication (H : Type) : Type := mkPublication {
  name : Val;
  subscribers : list (nat * H);
  next_key : nat
}.

(** Modelled from the spec: "createTopic(name) -> Topic", a topic with no
    handler yet. *)
Definition createPublication {H} (name : Val) : publication H :=
  {| name := name; subscribers := []; next_key := 0 |}.

(** Modelled from the spec: "subscribe(topic, handler) ->
    unsubscribeHandle". The handler is registered after those already
    there; its key is the handle. *)
Definition subscribe {H} (p : publication H) (h : H) : publication H * nat :=
  ({| name := name p;
      subscribers := subscribers p ++ [(next_key p, h)];
      next_key := S (next_key p) |},
   next_key p).

(** Modelled from the spec: the handle "removes the registration from the
    underlying primitive", and the "underlying primitive treats repeat
    removal as a no-op". *)
Definition unsubscribe {H} (p : publication H) (key : nat) : publication H :=
  {| name := name p;
     subscribers := filter (fun kh => negb (Nat.eqb (fst kh) key)) (subscribers p);
     next_key := next_key p |}.

(** Modelled from the spec: publish "delivers synchronously to all
    currently-registered handlers, in registration order". The handlers are
    called one after the other; a handler that throws ends the delivery. *)
Fixpoint deliver {H St} (invoke : H -> Val -> M St unit)
    (hs : list (nat * H)) (v : Val) : M St unit :=
  match hs with
  | [] => ret tt
  | (_, h) :: rest => invoke h v ;; deliver invoke rest v
  end.

(** Modelled from the spec: "publish(topic, value) -> void". *)
Definition publish {H St} (invoke : H -> Val -> M St unit)
    (p : publication H) (v : Val) : M St unit :=
  emit (Publish v) ;; deliver invoke (subscribers p) v.
End pusu.

(* ===================================================================== *)
(** * The container *)
(* ===================================================================== *)

(** What the handler given to [pusu.subscribe] closes over. *)
Record listener : Type := mkListener {
  l_subscriber : arg Subscriber;
  l_selector : arg Selector;
  l_isEqual : arg IsEqual
}.

(** The variables of one call of [cell]: the publication and the two
    [let] bindings. *)
Record container : Type := mkContainer {
  publication : pusu.publication listener;
  previousState : Val;
  currentState : Val
}.

Definition set_publication (p : pusu.publication listener) (c : container) : container :=
  {| publication := p; previousState := previousState c; currentState := currentState c |}.
Definition set_previousState (v : Val) (c : container) : container :=
  {| publication := publication c; previousState := v; currentState := currentState c |}.
Definition set_currentState (v : Val) (c : container) : container :=
  {| publication := publication c; previousState := previousState c; currentState := v |}.

Definition JS : Type -> Type := M container.

(** src/unnamed/part_001 *)
Module Part001.

(** The handler of lines 41-56. *)
Definition handler (l : listener) (state : Val) : JS unit :=
  c <- get ;;
  prevSelectedState <- select (l_selector l) (previousState c) ;;
  currSelectedState <- select (l_selector l) state ;;
  unchanged <- compare (l_isEqual l) currSelectedState prevSelectedState ;;
  if negb unchanged
  then call_subscriber (l_subscriber l) currSelectedState
  else ret tt.

Definition cell (initialState : Val) : container :=
  {| publication := pusu.createPublication (VString "cell");
     previousState := initialState;
     currentState := initialState |}.

(** Returns the unsubscribe handle. *)
Definition subscribe (subscriber : arg Subscriber) (selector : arg Selector)
    (isEqual : arg IsEqual) : JS nat :=
  if negb (String.eqb (typeof_arg subscriber) "function")
  then throw (JsError "subscriber must be a function.")
  else if truthy_arg selector && negb (String.eqb (typeof_arg selector) "function")
  then throw (JsError "selector must be a function.")
  else if truthy_arg isEqual && negb (String.eqb (typeof_arg isEqual) "function")
  then throw (JsError "isEqual must be a function.")
  else
    c <- get ;;
    let (p, unsubscribe) :=
      pusu.subscribe (publication c) (mkListener subscriber selector isEqual) in
    put (set_publication p c) ;;
    c <- get ;;
    selected <- select selector (currentState c) ;;
    call_subscriber subscriber selected ;;
    ret unsubscribe.

(** The function [subscribe] returns. *)
Definition unsubscribe (key : nat) : JS unit :=
  c <- get ;;
  put (set_publication (pusu.unsubscribe (publication c) key) c).

Definition update (reducer : arg Reducer) : JS unit :=
  c <- get ;;
  put (set_previousState (currentState c) c) ;;
  c <- get ;;
  next <- call_reducer reducer (currentState c) ;;
  c <- get ;;
  put (set_currentState next c) ;;
  c <- get ;;
  pusu.publish handler (publication c) (currentState c).

End Part001.

(** src/src/index.ts, lines 54-136: the first variant, with [publish] and with
    an object as the argument of [createPublication]. *)
Module IndexFirst.

Definition handler (l : listener) (state : Val) : JS unit :=
  c <- get ;;
  prevSelectedState <- select (l_selector l) (previousState c) ;;
  currSelectedState <- select (l_selector l) state ;;
  unchanged <- compare (l_isEqual l) currSelectedState prevSelectedState ;;
  if negb unchanged
  then call_subscriber (l_subscriber l) currSelectedState
  else ret tt.

(** [{ name: "cell" }] is a fresh object; its address plays no part. *)
Definition cell (initialState : Val) : container :=
  {| publication := pusu.createPublication (VObject 0 [("name", VString "cell")]);
     previousState := initialState;
     currentState := initialState |}.

Definition subscribe (subscriber : arg Subscriber) (selector : arg Selector)
    (areEqual : arg IsEqual) : JS nat :=
  if negb (String.eqb (typeof_arg subscriber) "function")
  then throw (JsError "subscriber must be a function.")
  else if truthy_arg selector && negb (String.eqb (typeof_arg selector) "function")
  then throw (JsError "selector must be a function.")
  else if truthy_arg areEqual && negb (String.eqb (typeof_arg areEqual) "function")
  then throw (JsError "areEqual must be a function.")
  else
    c <- get ;;
    let (p, unsubscribe) :=
      pusu.subscribe (publication c) (mkListener subscriber selector areEqual) in
    put (set_publication p c) ;;
    c <- get ;;
    selected <- select selector (currentState c) ;;
    call_subscriber subscriber selected ;;
    ret unsubscribe.

Definition publish (reducer : arg Reducer) : JS unit :=
  c <- get ;;
  put (set_previousState (currentState c) c) ;;
  c <- get ;;
  next <- call_reducer reducer (currentState c) ;;
  c <- get ;;
  put (set_currentState next c) ;;
  c <- get ;;
  pusu.publish handler (publication c) (currentState c).

End IndexFirst.

(** src/src/index.ts, lines 194-274: the second variant, with [publish] and
    with the string "cell" as the argument of [createPublication]. *)
Module IndexSecond.

Definition handler (l : listener) (state : Val) : JS unit :=
  c <- get ;;
  prevSelectedState <- select (l_selector l) (previousState c) ;;
  currSelectedState <- select (l_selector l) state ;;
  unchanged <- compare (l_isEqual l) currSelectedState prevSelectedState ;;
  if negb unchanged
  then call_subscriber (l_subscriber l) currSelectedState
  else ret tt.

Definition cell (initialState : Val) : container :=
  {| publication := pusu.createPublication (VString "cell");
     previousState := initialState;
     currentState := initialState |}.

Definition subscribe (subscriber : arg Subscriber) (selector : arg Selector)
    (areEqual : arg IsEqual) : JS nat :=
  if negb (String.eqb (typeof_arg subscriber) "function")
  then throw (JsError "subscriber must be a function.")
  else if truthy_arg selector && negb (String.eqb (typeof_arg selector) "function")
  then throw (JsError "selector must be a function.")
  else if truthy_arg areEqual && negb (String.eqb (typeof_arg areEqual) "function")
  then throw (JsError "areEqual must be a function.")
  else
    c <- get ;;
    let (p, unsubscribe) :=
      pusu.subscribe (publication c) (mkListener subscriber selector areEqual) in
    put (set_publication p c) ;;
    c <- get ;;
    selected <- select selector (currentState c) ;;
    call_subscriber subscriber selected ;;
    ret unsubscribe.

Definition publish (reducer : arg Reducer) : JS unit :=
  c <- get ;;
  put (set_previousState (currentState c) c) ;;
  c <- get ;;
  next <- call_reducer reducer (currentState c) ;;
  c <- get ;;
  put (set_currentState next c) ;;
  c <- get ;;
  pusu.publish handler (publication c) (currentState c).

End IndexSecond.

(* ===================================================================== *)
(** * Subscribers that call back *)
(* ===================================================================== *)

(** src/unnamed/part_001 once more, for subscribers that call [update] of
    the container they are subscribed to from inside their invocation. *)
Module Reentrant.

(** A subscriber that, given a value, calls update(r) for each reducer r of
    a list, in order, and then returns or throws. It catches nothing: an
    exception of one of its calls to [update] ends it. *)
Definition Subscriber : Type := Val -> list (arg Reducer) * outcome unit.

Record listener : Type := mkListener {
  l_subscriber : arg Subscriber;
  l_selector : arg Selector;
  l_isEqual : arg IsEqual
}.

Record container : Type := mkContainer {
  publication : pusu.publication listener;
  previousState : Val;
  currentState : Val
}.

Definition set_publication (p : pusu.publication listener) (c : container) : container :=
  {| publication := p; previousState := previousState c; currentState := currentState c |}.
Definition set_previousState (v : Val) (c : container) : container :=
  {| publication := publication c; previousState := v; currentState := currentState c |}.
Definition set_currentState (v : Val) (c : container) : container :=
  {| publication := publication c; previousState := previousState c; currentState := v |}.

Definition JS : Type -> Type := M container.

(** The runtime's RangeError for calls nested deeper than its stack. *)
Definition stack_overflow : exn := JsError "Maximum call stack size exceeded".

Section Body.
(** What [update] does when a subscriber calls it. *)
Variable nested : arg Reducer -> JS unit.

Fixpoint call_back (rs : list (arg Reducer)) : JS unit :=
  match rs with
  | [] => ret tt
  | r :: rest => nested r ;; call_back rest
  end.

Definition call_subscriber (f : arg Subscriber) (v : Val) : JS unit :=
  match f with
  | Fn g =>
      emit (CallSubscriber (fid g) v) ;;
      call_back (fst (body g v)) ;;
      lift (snd (body g v))
  | Data _ => throw (not_a_function "subscriber")
  end.

(** The handler of lines 41-56. *)
Definition handler (l : listener) (state : Val) : JS unit :=
  c <- get ;;
  prevSelectedState <- select (l_selector l) (previousState c) ;;
  currSelectedState <- select (l_selector l) state ;;
  unchanged <- compare (l_isEqual l) currSelectedState prevSelectedState ;;
  if negb unchanged
  then call_subscriber (l_subscriber l) currSelectedState
  else ret tt.

Definition subscribe_with (subscriber : arg Subscriber) (selector : arg Selector)
    (isEqual : arg IsEqual) : JS nat :=
  if negb (String.eqb (typeof_arg subscriber) "function")
  then throw (JsError "subscriber must be a function.")
  else if truthy_arg selector && negb (String.eqb (typeof_arg selector) "function")
  then throw (JsError "selector must be a function.")
  else if truthy_arg isEqual && negb (String.eqb (typeof_arg isEqual) "function")
  then throw (JsError "isEqual must be a function.")
  else
    c <- get ;;
    let (p, unsubscribe) :=
      pusu.subscribe (publication c) (mkListener subscriber selector isEqual) in
    put (set_publication p c) ;;
    c <- get ;;
    selected <- select selector (currentState c) ;;
    call_subscriber subscriber selected ;;
    ret unsubscribe.

Definition update_with (reducer : arg Reducer) : JS unit :=
  c <- get ;;
  put (set_previousState (currentState c) c) ;;
  c <- get ;;
  next <- call_reducer reducer (currentState c) ;;
  c <- get ;;
  put (set_currentState next c) ;;
  c <- get ;;
  pusu.publish handler (publication c) (currentState c).
End Body.

(** [update] as a subscriber finds it when the stack has room for [depth]
    more nested calls of it. *)
Fixpoint nested (depth : nat) : arg Reducer -> JS unit :=
  match depth with
  | 0 => fun _ => throw stack_overflow
  | S d => update_with (nested d)
  end.

Definition cell (initialState : Val) : container :=
  {| publication := pusu.createPublication (VString "cell");
     previousState := initialState;
     currentState := initialState |}.

Definition subscribe (depth : nat) (subscriber : arg Subscriber) (selector : arg Selector)
    (isEqual : arg IsEqual) : JS nat :=
  subscribe_with (nested depth) subscriber selector isEqual.

Definition update (depth : nat) (reducer : arg Reducer) : JS unit :=
  update_with (nested depth) reducer.

(** The function [subscribe] returns. *)
Definition unsubscribe (key : nat) : JS unit :=
  c <- get ;;
  put (set_publication (pusu.unsubscribe (publication c) key) c).

(** The container once [l] is registered with pusu. *)
Definition register (l : listener) (c : container) : container :=
  set_publication (fst (pusu.subscribe (publication c) l)) c.

(** The events of the immediate invocation's selection. *)
Definition selecting_events (selector : arg Selector) (x : Val) : list event :=
  match selector with
  | Fn g => [CallSelector (fid g) x]
  | Data _ => []
  end.

(** [s => { if (s === 0) update(n => n + 1) }] *)
Definition bump_zero (id : nat) : fn Subscriber :=
  mkFn id (fun v =>
             match v with
             | VNumber 0 =>
                 ([Fn (mkFn 34 (fun s => match s with
                                          | VNumber n => Ret (VNumber (n + 1))
                                          | _ => Ret VNaN
                                          end))],
                  Ret tt)
             | _ => ([], Ret tt)
             end).

(** [(a, b) => a === b], given as the equality policy. *)
Definition identical : fn IsEqual := mkFn 21 (fun a b => Ret (strict_eq a b)).
End Reentrant.

(** The call [cell(...args)] as a client makes it. [cell] declares one
    parameter: the first argument is the initial state ([undefined] when
    there is none) and any further argument is ignored. The call creates one
    publication. *)
Definition create (args : list Val) : container * list event :=
  let c := Part001.cell (nth 0 args VUndefined) in
  (c, [CreateTopic (pusu.name (publication c))]).

(** One call a client makes on the container of part_001. *)
Inductive op : Type :=
| Update (reducer : arg Reducer)
| Subscribe (subscriber : arg Subscriber) (selector : arg Selector) (isEqual : arg IsEqual)
| Unsubscribe (key : nat).

Definition perform (o : op) : JS unit :=
  match o with
  | Update reducer => Part001.update reducer
  | Subscribe subscriber selector isEqual =>
      Part001.subscribe subscriber selector isEqual ;; ret tt
  | Unsubscribe key => Part001.unsubscribe key
  end.

(** A client making the calls one after the other, carrying on after a call
    that threw: the container at the end and everything that left it. *)
Fixpoint run (ops : list op) (c : container) : container * list event :=
  match ops with
  | [] => (c, [])
  | o :: rest =>
      let r := perform o c in
      let (c', t) := run rest (st r) in
      (c', trace r ++ t)
  end.

Definition is_update (o : op) : bool :=
  match o with
  | Update _ => true
  | _ => false
  end.

(* ===================================================================== *)
(** * Optional arguments, objects and the examples *)
(* ===================================================================== *)

(** An optional parameter: the function when given, [undefined] when not. *)
Definition optional {B} (o : option (fn B)) : arg B :=
  match o with
  | Some f => Fn f
  | None => Data VUndefined
  end.

(** Object literals and property reads, for the examples. *)
Fixpoint lookup_prop (k : string) (ps : list (string * Val)) : Val :=
  match ps with
  | [] => VUndefined
  | (k', v) :: rest => if String.eqb k k' then v else lookup_prop k rest
  end.

Fixpoint set_prop (k : string) (x : Val) (ps : list (string * Val)) : list (string * Val) :=
  match ps with
  | [] => [(k, x)]
  | (k', v) :: rest =>
      if String.eqb k k' then (k', x) :: rest else (k', v) :: set_prop k x rest
  end.

(** [v.k] *)
Definition get_prop (k : string) (v : Val) : outcome Val :=
  match v with
  | VObject _ ps => Ret (lookup_prop k ps)
  | VUndefined | VNull =>
      Throw (JsTypeError (String.append "Cannot read properties of undefined or null, reading " k))
  | _ => Ret VUndefined
  end.

(** [{...v, k: x}], the new object placed at [addr]. *)
Definition spread_with (addr : nat) (k : string) (x : Val) (v : Val) : Val :=
  match v with
  | VObject _ ps => VObject addr (set_prop k x ps)
  | _ => VObject addr [(k, x)]
  end.

Module Examples.
(** [{ name: "a", address: "x" }] *)
Definition person : Val :=
  VObject 1 [("name", VString "a"); ("address", VString "x")].

(** A subscriber that records nothing and returns. *)
Definition listen (id : nat) : fn Subscriber := mkFn id (fun _ => Ret tt).

(** [state => state.name] *)
Definition by_name : fn Selector := mkFn 20 (get_prop "name").

(** [state => ({ ...state, address: "y" })] *)
Definition move : fn Reducer :=
  mkFn 30 (fun s => Ret (spread_with 2 "address" (VString "y") s)).

(** [state => ({ ...state, name: "b" })] *)
Definition call_b : fn Reducer :=
  mkFn 31 (fun s => Ret (spread_with 3 "name" (VString "b") s)).

(** [() => { throw "boom" }] *)
Definition failing : fn Reducer := mkFn 33 (fun _ => Throw (Thrown (VString "boom"))).

(** [state => state + 1] on numbers. *)
Definition plus_one : fn (Val -> Val) :=
  mkFn 34 (fun s => match s with VNumber n => VNumber (n + 1) | _ => VNaN end).

(** [state => state], as a transform. *)
Definition unchanged : fn (Val -> Val) := mkFn 35 (fun s => s).
End Examples.

(* ===================================================================== *)
(** * The words of the specification *)
(* ===================================================================== *)

(** "Default selector: identity (selected state == full state)." *)
Definition apply_selector (selector : option (fn Selector)) (x : Val) : outcome Val :=
  match selector with
  | Some f => body f x
  | None => Ret x
  end.

(** "Default equalityPolicy: strict value identity." *)
Definition apply_policy (policy : option (fn IsEqual)) (current previous : Val)
    : outcome bool :=
  match policy with
  | Some f => body f current previous
  | None => Ret (strict_eq current previous)
  end.

Definition selector_events (selector : option (fn Selector)) (x : Val) : list event :=
  match selector with
  | Some f => [CallSelector (fid f) x]
  | None => []
  end.

Definition policy_events (policy : option (fn IsEqual)) (current previous : Val)
    : list event :=
  match policy with
  | Some f => [CallIsEqual (fid f) current previous]
  | None => []
  end.

(** A transform that returns, as the reducer it is. *)
Definition pure (t : fn (Val -> Val)) : fn Reducer :=
  mkFn (fid t) (fun s => Ret (body t s)).

(** "The correctly folded state": t1(S0), t2(t1(S0)), ... *)
Fixpoint folded (S0 : Val) (ts : list (fn (Val -> Val))) : list Val :=
  match ts with
  | [] => []
  | t :: rest => body t S0 :: folded (body t S0) rest
  end.

(** Each transform returns a state that is not [===] the state it got. *)
Fixpoint always_changes (S0 : Val) (ts : list (fn (Val -> Val))) : bool :=
  match ts with
  | [] => true
  | t :: rest => negb (strict_eq (body t S0) S0) && always_changes (body t S0) rest
  end.

(** The folded states a subscriber of the whole state is told of: those that
    are not [===] the state before. *)
Fixpoint delivered (S0 : Val) (ts : list (fn (Val -> Val))) : list Val :=
  match ts with
  | [] => []
  | t :: rest =>
      (if strict_eq (body t S0) S0 then [] else [body t S0])
      ++ delivered (body t S0) rest
  end.

(** subscribe(sub), then update(t1), ..., update(tn). *)
Definition plain_session (sub : fn Subscriber) (ts : list (fn (Val -> Val))) : list op :=
  Subscribe (Fn sub) (Data VUndefined) (Data VUndefined)
  :: map (fun t => Update (Fn (pure t))) ts.

(** The container once [l] is registered with pusu. *)
Definition register (l : listener) (c : container) : container :=
  set_publication (fst (pusu.subscribe (publication c) l)) c.

(** An argument that passes the check [a && typeof a !== "function"]. *)
Definition passes {B} (a : arg B) : Prop :=
  truthy_arg a = true -> exists g, a = Fn g.

(** What the immediate invocation returns to [subscribe]. *)
Definition after_call (key : nat) (o : outcome unit) : outcome nat :=
  match o with
  | Ret _ => Ret key
  | Throw e => Throw e
  end.

(** Listener [l] invokes the function [f]. *)
Definition subscriber_is (f : nat) (l : listener) : bool :=
  match l_subscriber l with
  | Fn g => Nat.eqb (fid g) f
  | Data _ => false
  end.

(** The function [f] is registered in [c] through the handle [key] alone. *)
Definition only_through (f key : nat) (c : container) : bool :=
  forallb (fun kh => implb (subscriber_is f (snd kh)) (Nat.eqb (fst kh) key))
    (pusu.subscribers (publication c)).

(** The handles in use are older than the next one. *)
Definition keys_below (c : container) : Prop :=
  Forall (fun kh => fst kh < pusu.next_key (publication c))
    (pusu.subscribers (publication c)).

(** The container with another argument given to [createPublication]. *)
Definition rename (n : Val) (c : container) : container :=
  set_publication
    {| pusu.name := n;
       pusu.subscribers := pusu.subscribers (publication c);
       pusu.next_key := pusu.next_key (publication c) |} c.

(** The same run, on the container named [n]. *)
Definition renamed {A} (n : Val) (r : outcome A * container * list event)
    : outcome A * container * list event :=
  (out r, rename n (st r), trace r).

(** An equality policy that the check [a && typeof a !== "function"] turns
    down. *)
Definition turned_down {B} (a : arg B) : bool :=
  match a with
  | Fn _ => false
  | Data v => truthy v
  end.

(** The listener of a subscription with no selector and no equality policy. *)
Definition plain (sub : fn Subscriber) : listener :=
  mkListener (Fn sub) (Data VUndefined) (Data VUndefined).

(** The events a handler of listener [l] can produce. *)
Definition listener_event (l : listener) (ev : event) : Prop :=
  match ev with
  | CallSelector _ _ | CallIsEqual _ _ _ => True
  | CallSubscriber f _ => exists g, l_subscriber l = Fn g /\ fid g = f
  | _ => False
  end.

(** Case analysis on what user code answered, where a run branches on it. *)
Ltac split_run :=
  repeat (cbn in *;
          match goal with
          | |- context [match body ?g ?x ?y with _ => _ end] => destruct (body g x y) eqn:?
          | |- context [match body ?g ?x with _ => _ end] => destruct (body g x) eqn:?
          | |- context [if truthy ?v then _ else _] => destruct (truthy v) eqn:?
          | |- context [if strict_eq ?a ?b then _ else _] => destruct (strict_eq a b) eqn:?
          | |- context [if negb (strict_eq ?a ?b) then _ else _] =>
              destruct (strict_eq a b) eqn:?
          | |- context [if negb ?b then _ else _] => is_var b; destruct b
          | |- context [if ?b then _ else _] => is_var b; destruct b
          | |- context [match ?o with _ => _ end] => is_var o; destruct o
          end).

Ltac unfold_run :=
  unfold Part001.handler, select, compare, call_selector, call_isEqual,
    call_subscriber, call_reducer, bind, get, put, emit, lift, throw, ret,
    out, st, trace in *.

(** A selector and an equality policy that return, as the functions they
    are. *)
Definition pure_selector (g : fn (Val -> Val)) : fn Selector :=
  mkFn (fid g) (fun x => Ret (body g x)).

Definition pure_policy (h : fn (Val -> Val -> bool)) : fn IsEqual :=
  mkFn (fid h) (fun a b => Ret (body h a b)).

(** [selector ? selector(x) : x] and [fnIsEqual(a, b)] for such functions. *)
Definition selection (g : option (fn (Val -> Val))) (x : Val) : Val :=
  match g with
  | Some g => body g x
  | None => x
  end.

Definition held_equal (h : option (fn (Val -> Val -> bool))) (a b : Val) : bool :=
  match h with
  | Some h => body h a b
  | None => strict_eq a b
  end.

(** The selected values a subscriber is told of along t1, ..., tn: at each
    update the selection of the new state, when the policy does not hold it
    equal to the selection of the state just before. *)
Fixpoint notified (g : option (fn (Val -> Val))) (h : option (fn (Val -> Val -> bool)))
    (S0 : Val) (ts : list (fn (Val -> Val))) : list Val :=
  match ts with
  | [] => []
  | t :: rest =>
      (if held_equal h (selection g (body t S0)) (selection g S0)
       then []
       else [selection g (body t S0)])
      ++ notified g h (body t S0) rest
  end.

(** The listener of subscribe(sub, g, h), either of g and h left out or not. *)
Definition selecting (sub : fn Subscriber) (g : option (fn (Val -> Val)))
    (h : option (fn (Val -> Val -> bool))) : listener :=
  mkListener (Fn sub) (optional (option_map pure_selector g))
    (optional (option_map pure_policy h)).

(** subscribe(sub, g, h), then update(t1), ..., update(tn). *)
Definition selecting_session (sub : fn Subscriber) (g : option (fn (Val -> Val)))
    (h : option (fn (Val -> Val -> bool))) (ts : list (fn (Val -> Val))) : list op :=
  Subscribe (Fn sub) (optional (option_map pure_selector g))
    (optional (option_map pure_policy h))
  :: map (fun t => Update (Fn (pure t))) ts.

Definition is_NaN (v : Val) : bool :=
  match v with
  | VNaN => true
  | _ => false
  end.

Module MoreExamples.
(** [s => { throw "no" }] *)
Definition refuse (id : nat) : fn Subscriber :=
  mkFn id (fun _ => Throw (Thrown (VString "no"))).

(** [(a, b) => Math.abs(a - b) <= 1] on numbers. *)
Definition close_by : fn (Val -> Val -> bool) :=
  mkFn 40 (fun a b =>
             match a, b with
             | VNumber x, VNumber y => Z.leb (Z.abs (x - y)) 1
             | _, _ => false
             end).

(** [s => {}], as a subscriber that could call back and does not. *)
Definition stay (id : nat) : fn Reentrant.Subscriber := mkFn id (fun _ => ([], Ret tt)).

(** [() => 0] *)
Definition to_zero : fn Reducer := mkFn 36 (fun _ => Ret (VNumber 0)).
End MoreExamples.

(** The listener of a subscription with no selector and no policy, for a
    subscriber that may call back. *)
Definition plain_reentrant (sub : fn Reentrant.Subscriber) : Reentrant.listener :=
  Reentrant.mkListener (Fn sub) (Data VUndefined) (Data VUndefined).

(** The run [r'] on the container with [l] registered last follows the run
    [r] on the container without it: the same outcome, the same container
    but for [l], and the same invocations of the function [f]. *)
Definition follows (l : Reentrant.listener) (f : nat) {A : Type}
    (r' r : outcome A * Reentrant.container * list event) : Prop :=
  out r' = out r
  /\ st r' = Reentrant.register l (st r)
  /\ invocations f (trace r') = invocations f (trace r).

Definition follows_all (l : Reentrant.listener) (f : nat) {A : Type}
    (m' m : Reentrant.JS A) : Prop :=
  forall c, follows l f (m' (Reentrant.register l c)) (m c).

(** A computation that neither reads nor writes the container. *)
Definition stateless {St A : Type} (m : M St A) : Prop :=
  exists o t, forall s, m s = (o, s, t).

(** A subscriber that calls nothing back, as one that could; and with it
    the listeners, the publication and the container of part_001. *)
Definition as_reentrant (sub : fn Subscriber) : fn Reentrant.Subscriber :=
  mkFn (fid sub) (fun v => ([], body sub v)).

Definition embed_arg (a : arg Subscriber) : arg Reentrant.Subscriber :=
  match a with
  | Fn sub => Fn (as_reentrant sub)
  | Data v => Data v
  end.

Definition embed_listener (l : listener) : Reentrant.listener :=
  Reentrant.mkListener (embed_arg (l_subscriber l)) (l_selector l) (l_isEqual l).

Definition embed (c : container) : Reentrant.container :=
  {| Reentrant.publication :=
       {| pusu.name := pusu.name (publication c);
          pusu.subscribers :=
            map (fun kh => (fst kh, embed_listener (snd kh)))
              (pusu.subscribers (publication c));
          pusu.next_key := pusu.next_key (publication c) |};
     Reentrant.previousState := previousState c;
     Reentrant.currentState := currentState c |}.

Definition embed_run {A} (r : outcome A * container * list event)
    : outcome A * Reentrant.container * list event :=
  (out r, embed (st r), trace r).

(* ===================================================================== *)
(** * Basic facts *)
(* ===================================================================== *)

Lemma invocations_app f t1 t2 :
  invocations f (t1 ++ t2) = invocations f t1 ++ invocations f t2.
Proof.
  induction t1 as [|ev t1 IH]; simpl; [reflexivity|].
  destruct ev; auto.
  destruct (Nat.eqb f0 f); simpl; now rewrite IH.
Qed.

Lemma select_optional {St} (selector : option (fn Selector)) x (c : St) :
  select (optional selector) x c
  = (apply_selector selector x, c, selector_events selector x).
Proof. destruct selector; reflexivity. Qed.

(** Once the variables a handler reads are fixed, so is what it does. *)
Lemma handler_run sub selector policy N c po pn b :
  apply_selector selector (previousState c) = Ret po ->
  apply_selector selector N = Ret pn ->
  apply_policy policy pn po = Ret b ->
  Part001.handler (mkListener (Fn sub) (optional selector) (optional policy)) N c
  = ((if b then Ret tt else body sub pn), c,
     selector_events selector (previousState c) ++ selector_events selector N
     ++ policy_events policy pn po
     ++ (if b then [] else [CallSubscriber (fid sub) pn])).
Proof.
  intros Hpo Hpn Hb.
  unfold Part001.handler, bind, get. cbn [l_isEqual l_selector l_subscriber].
  rewrite select_optional, Hpo. cbv beta iota.
  rewrite select_optional, Hpn. cbv beta iota.
  destruct policy as [g|]; simpl in Hb |- *.
  - rewrite Hb. destruct b; simpl; rewrite ?app_nil_r; reflexivity.
  - injection Hb as <-.
    destruct (strict_eq pn po); simpl; rewrite ?app_nil_r; reflexivity.
Qed.

(* ===================================================================== *)
(** * Dispatch: selection and change detection *)
(* ===================================================================== *)

(** C1. On a broadcast of new state [N] to a subscription with selector [f]
    and equality policy [eq], while the container's previous state is [O],
    the handler computes previousSelected = f(O), then currentSelected =
    f(N), asks eq(currentSelected, previousSelected), and invokes the
    subscriber with currentSelected exactly when the answer is false. An
    omitted selector selects the whole state; an omitted policy compares with
    [===]. On { name: "a", address: "x" } with the selector s => s.name, an
    update of the address alone invokes nothing, and the update of the name
    to "b" invokes the subscriber with "b". *)
Theorem C1_dispatch_selects_and_gates :
  forall (c : container) (sub : fn Subscriber) (selector : option (fn Selector))
         (policy : option (fn IsEqual)) (N previousSelected currentSelected : Val)
         (unchanged : bool),
    apply_selector selector (previousState c) = Ret previousSelected ->
    apply_selector selector N = Ret currentSelected ->
    apply_policy policy currentSelected previousSelected = Ret unchanged ->
    let r := Part001.handler (mkListener (Fn sub) (optional selector) (optional policy)) N c in
    let s1 := Part001.subscribe (Fn (Examples.listen 10)) (Fn Examples.by_name)
                (Data VUndefined) (Part001.cell Examples.person) in
    let s2 := Part001.update (Fn Examples.move) (st s1) in
    let s3 := Part001.update (Fn Examples.call_b) (st s2) in
    trace r
    = selector_events selector (previousState c) ++ selector_events selector N
      ++ policy_events policy currentSelected previousSelected
      ++ (if unchanged then [] else [CallSubscriber (fid sub) currentSelected])
    /\ invocations (fid sub) (trace r) = (if unchanged then [] else [currentSelected])
    /\ st r = c
    /\ apply_selector None N = Ret N
    /\ apply_policy None currentSelected previousSelected
       = Ret (strict_eq currentSelected previousSelected)
    /\ invocations 10 (trace s1) = [VString "a"]
    /\ invocations 10 (trace s2) = []
    /\ invocations 10 (trace s3) = [VString "b"].
Proof.
  intros c sub selector policy N po pn b Hpo Hpn Hb r s1 s2 s3.
  subst r. rewrite (handler_run sub selector policy N c Hpo Hpn Hb).
  unfold trace, st; cbn [fst snd].
  repeat split; try reflexivity.
  rewrite !invocations_app.
  assert (Hs : forall x, invocations (fid sub) (selector_events selector x) = []).
  { intros x; destruct selector; reflexivity. }
  assert (He : invocations (fid sub) (policy_events policy pn po) = []).
  { destruct policy; reflexivity. }
  rewrite !Hs, He. destruct b; simpl; [reflexivity|].
  now rewrite Nat.eqb_refl.
Qed.

(** The example of C1, followed through the handler: the address changes,
    the selected name does not. *)
Lemma C1_witness :
  let c := st (Part001.update (Fn Examples.move)
                 (st (Part001.subscribe (Fn (Examples.listen 10)) (Fn Examples.by_name)
                        (Data VUndefined) (Part001.cell Examples.person)))) in
  let r := Part001.handler
             (mkListener (Fn (Examples.listen 10)) (optional (Some Examples.by_name))
                (optional None))
             (currentState c) c in
  trace r
  = [CallSelector 20 (previousState c); CallSelector 20 (currentState c)]
  /\ invocations 10 (trace r) = [].
Proof.
  intros c r.
  pose proof (@C1_dispatch_selects_and_gates c (Examples.listen 10)
                (Some Examples.by_name) None (currentState c)
                (VString "a") (VString "a") true
                eq_refl eq_refl eq_refl) as H.
  cbv zeta in H. destruct H as (Ht & Hi & _).
  split; [exact Ht | exact Hi].
Defined.

(* ===================================================================== *)
(** * What a broadcast can do *)
(* ===================================================================== *)

Lemma handler_frame l v c : st (Part001.handler l v c) = c.
Proof.
  destruct l as [[s|x] [g|y] [h|z]]; unfold_run; split_run; reflexivity.
Qed.

Lemma handler_events l v c : Forall (listener_event l) (trace (Part001.handler l v c)).
Proof.
  destruct l as [[s|x] [g|y] [h|z]]; unfold_run;
    split_run; repeat constructor; simpl; eauto.
Qed.

Lemma bind_run {St A B} (m : M St A) (k : A -> M St B) s :
  bind m k s
  = match out (m s) with
    | Ret a =>
        (out (k a (st (m s))), st (k a (st (m s))), trace (m s) ++ trace (k a (st (m s))))
    | Throw e => (Throw e, st (m s), trace (m s))
    end.
Proof.
  unfold bind, out, st, trace.
  destruct (m s) as [[[a|e] s1] t1]; cbn; [|reflexivity].
  destruct (k a s1) as [[o s2] t2]; reflexivity.
Qed.

Lemma then_ret {St A} (m : M St A) s :
  st ((m ;; ret tt) s) = st (m s) /\ trace ((m ;; ret tt) s) = trace (m s).
Proof.
  rewrite bind_run. destruct (out (m s)); cbn; [rewrite app_nil_r|]; split; reflexivity.
Qed.

Lemma deliver_frame hs v c : st (pusu.deliver Part001.handler hs v c) = c.
Proof.
  induction hs as [|[k h] hs IH]; [reflexivity|].
  cbn [pusu.deliver]. rewrite bind_run, handler_frame.
  destruct (out (Part001.handler h v c)); cbn; [exact IH | reflexivity].
Qed.

Lemma deliver_events hs v c :
  Forall (fun ev => Exists (fun kh => listener_event (snd kh) ev) hs)
    (trace (pusu.deliver Part001.handler hs v c)).
Proof.
  induction hs as [|[k h] hs IH]; [constructor|].
  cbn [pusu.deliver]. rewrite bind_run, handler_frame.
  assert (Hh : Forall (fun ev => Exists (fun kh => listener_event (snd kh) ev) ((k, h) :: hs))
                 (trace (Part001.handler h v c))).
  { eapply Forall_impl; [|apply handler_events]. intros ev Hev. now left. }
  destruct (out (Part001.handler h v c)); unfold trace at 1; cbn [snd]; [|exact Hh].
  apply Forall_app; split; [exact Hh|].
  eapply Forall_impl; [|exact IH]. intros ev Hev. now right.
Qed.

(** What one call of [update] does, whatever the reducer is. *)
Lemma update_run reducer c :
  Part001.update reducer c
  = match reducer with
    | Data _ =>
        (Throw (not_a_function "reducer"), set_previousState (currentState c) c, [])
    | Fn f =>
        match body f (currentState c) with
        | Throw e =>
            (Throw e, set_previousState (currentState c) c,
             [CallReducer (fid f) (currentState c)])
        | Ret next =>
            let c' := set_currentState next (set_previousState (currentState c) c) in
            let d := pusu.deliver Part001.handler (pusu.subscribers (publication c)) next c' in
            (out d, c', CallReducer (fid f) (currentState c) :: Publish next :: trace d)
        end
    end.
Proof.
  unfold Part001.update, pusu.publish.
  destruct reducer as [f|v]; [|reflexivity].
  unfold bind at 1, get at 1. unfold bind at 1, put at 1.
  unfold bind at 1, get at 1. unfold bind at 1. unfold call_reducer, bind at 1, emit, lift.
  cbn [set_previousState currentState app].
  destruct (body f (currentState c)) as [next|e]; [|reflexivity].
  cbn -[pusu.deliver].
  set (c' := set_currentState next (set_previousState (currentState c) c)).
  change ({| publication := publication c; previousState := currentState c;
             currentState := next |}) with c'.
  pose proof (deliver_frame (pusu.subscribers (publication c)) next c') as Hf.
  destruct (pusu.deliver Part001.handler (pusu.subscribers (publication c)) next c')
    as [[o s] t].
  unfold st in Hf; cbn in Hf; subst s. reflexivity.
Qed.

(* ===================================================================== *)
(** * subscribe *)
(* ===================================================================== *)

Lemma typeof_not_function v : String.eqb (typeof v) "function" = false.
Proof. destruct v; reflexivity. Qed.

Lemma subscribe_bad_subscriber v selector isEqual c :
  Part001.subscribe (Data v) selector isEqual c
  = (Throw (JsError "subscriber must be a function."), c, []).
Proof.
  unfold Part001.subscribe. cbn [typeof_arg]. now rewrite typeof_not_function.
Qed.

Lemma subscribe_bad_selector f v isEqual c :
  truthy v = true ->
  Part001.subscribe (Fn f) (Data v) isEqual c
  = (Throw (JsError "selector must be a function."), c, []).
Proof.
  intros Hv. unfold Part001.subscribe. cbn [typeof_arg truthy_arg].
  rewrite typeof_not_function, Hv. reflexivity.
Qed.

Lemma passes_check {B} (a : arg B) :
  passes a -> truthy_arg a && negb (String.eqb (typeof_arg a) "function") = false.
Proof.
  intros Hp. destruct a as [g|v]; [reflexivity|].
  cbn [typeof_arg truthy_arg]. destruct (truthy v) eqn:E; [|reflexivity].
  destruct (Hp E) as [g Hg]. discriminate.
Qed.

Lemma subscribe_bad_isEqual f selector v c :
  passes selector ->
  truthy v = true ->
  Part001.subscribe (Fn f) selector (Data v) c
  = (Throw (JsError "isEqual must be a function."), c, []).
Proof.
  intros Hs Hv. unfold Part001.subscribe.
  rewrite (passes_check Hs). cbn [typeof_arg truthy_arg].
  rewrite typeof_not_function, Hv. reflexivity.
Qed.

(** A call of [subscribe] whose arguments pass the three checks. *)
Lemma subscribe_run f selector isEqual c :
  passes selector ->
  passes isEqual ->
  Part001.subscribe (Fn f) selector isEqual c
  = let c' := register (mkListener (Fn f) selector isEqual) c in
    let key := pusu.next_key (publication c) in
    match selector with
    | Fn g =>
        match body g (currentState c) with
        | Ret selected =>
            (after_call key (body f selected), c',
             [CallSelector (fid g) (currentState c); CallSubscriber (fid f) selected])
        | Throw e => (Throw e, c', [CallSelector (fid g) (currentState c)])
        end
    | Data _ =>
        (after_call key (body f (currentState c)), c',
         [CallSubscriber (fid f) (currentState c)])
    end.
Proof.
  intros Hs He. unfold Part001.subscribe.
  rewrite (passes_check Hs), (passes_check He). cbn [typeof_arg String.eqb negb].
  change (String.eqb "function" "function") with true. cbn [negb].
  destruct selector as [g|v].
  - unfold_run. cbn. destruct (body g (currentState c)) as [x|e]; cbn; [|reflexivity].
    destruct (body f x) as [[]|e]; reflexivity.
  - assert (Hv : truthy v = false).
    { destruct (truthy v) eqn:E; [|reflexivity].
      destruct (Hs E) as [g Hg]; discriminate. }
    unfold_run. cbn. rewrite Hv. cbn.
    destruct (body f (currentState c)) as [[]|e]; reflexivity.
Qed.

(** One way or the other, every pair of arguments either fails a check or
    passes them all. *)
Lemma passes_or_not {B} (a : arg B) :
  passes a \/ exists v, a = Data v /\ truthy v = true.
Proof.
  destruct a as [g|v].
  - left. intros _. now exists g.
  - destruct (truthy v) eqn:E.
    + right. now exists v.
    + left. intros H. cbn in H. congruence.
Qed.

(** A falsy selector or equality policy is read as an omitted one, by
    [subscribe] and by the handler. *)
Lemma falsy_is_omitted sub v w c :
  truthy v = false ->
  truthy w = false ->
  (forall isEqual,
      out (Part001.subscribe sub (Data v) isEqual c)
      = out (Part001.subscribe sub (Data VUndefined) isEqual c)
      /\ trace (Part001.subscribe sub (Data v) isEqual c)
         = trace (Part001.subscribe sub (Data VUndefined) isEqual c))
  /\ (forall selector,
        out (Part001.subscribe sub selector (Data w) c)
        = out (Part001.subscribe sub selector (Data VUndefined) c)
        /\ trace (Part001.subscribe sub selector (Data w) c)
           = trace (Part001.subscribe sub selector (Data VUndefined) c))
  /\ (forall isEqual N,
        Part001.handler (mkListener sub (Data v) isEqual) N c
        = Part001.handler (mkListener sub (Data VUndefined) isEqual) N c)
  /\ (forall selector N,
        Part001.handler (mkListener sub selector (Data w)) N c
        = Part001.handler (mkListener sub selector (Data VUndefined)) N c).
Proof.
  intros Hv Hw. split; [|split; [|split]].
  - intros isEqual. destruct sub as [f|x]; [|now rewrite !subscribe_bad_subscriber].
    destruct (passes_or_not isEqual) as [He|(y & -> & Hy)].
    + rewrite !subscribe_run; try assumption; try (intros H; cbn in H; congruence).
      split; reflexivity.
    + rewrite !subscribe_bad_isEqual; try assumption;
        try (intros H; cbn in H; congruence). split; reflexivity.
  - intros selector. destruct sub as [f|x]; [|now rewrite !subscribe_bad_subscriber].
    destruct (passes_or_not selector) as [Hs|(y & -> & Hy)].
    + rewrite !subscribe_run; try assumption; try (intros H; cbn in H; congruence).
      destruct selector as [g|y]; [destruct (body g (currentState c))|];
        split; reflexivity.
    + rewrite !subscribe_bad_selector by assumption. split; reflexivity.
  - intros isEqual N. unfold Part001.handler, select. cbn. rewrite Hv. reflexivity.
  - intros selector N. unfold Part001.handler, compare. cbn. rewrite Hw. reflexivity.
Qed.

(** C3, as the code has it. [subscribe] checks its arguments before it does
    anything else: it throws Error("subscriber must be a function.") for
    every subscriber that is not a function (a boolean, a number, a string,
    a symbol and an array among them), Error("selector must be a function.")
    for every truthy selector that is not a function, and Error("isEqual must
    be a function.") for every truthy equality policy that is not a function;
    the three errors differ, and a call that throws one leaves the container
    as it was and calls nobody. A falsy selector or policy (undefined, null,
    false, 0, NaN, the empty string) is taken as omitted: the subscription is
    registered and the subscriber invoked with the whole state. *)
Theorem C3_subscribe_validates_truthy_arguments :
  (forall c v selector isEqual,
      Part001.subscribe (Data v) selector isEqual c
      = (Throw (JsError "subscriber must be a function."), c, []))
  /\ Forall (fun v =>
               out (Part001.subscribe (Data v) (Data VUndefined) (Data VUndefined)
                      (Part001.cell (VObject 1 [])))
               = Throw (JsError "subscriber must be a function."))
       [VBoolean true; VNumber 123; VString "string"; VSymbol 0;
        VArray 2 [VNumber 1; VNumber 2; VNumber 3]]
  /\ (forall c f v isEqual,
        truthy v = true ->
        Part001.subscribe (Fn f) (Data v) isEqual c
        = (Throw (JsError "selector must be a function."), c, []))
  /\ (forall c f selector v,
        passes selector ->
        truthy v = true ->
        Part001.subscribe (Fn f) selector (Data v) c
        = (Throw (JsError "isEqual must be a function."), c, []))
  /\ (JsError "subscriber must be a function." <> JsError "selector must be a function."
      /\ JsError "subscriber must be a function." <> JsError "isEqual must be a function."
      /\ JsError "selector must be a function." <> JsError "isEqual must be a function.")
  /\ (forall c f v w,
        truthy v = false ->
        truthy w = false ->
        Part001.subscribe (Fn f) (Data v) (Data w) c
        = (after_call (pusu.next_key (publication c)) (body f (currentState c)),
           register (mkListener (Fn f) (Data v) (Data w)) c,
           [CallSubscriber (fid f) (currentState c)]))
  /\ (forall c sub v w,
        truthy v = false ->
        truthy w = false ->
        (forall isEqual,
            out (Part001.subscribe sub (Data v) isEqual c)
            = out (Part001.subscribe sub (Data VUndefined) isEqual c)
            /\ trace (Part001.subscribe sub (Data v) isEqual c)
               = trace (Part001.subscribe sub (Data VUndefined) isEqual c))
        /\ (forall selector,
              out (Part001.subscribe sub selector (Data w) c)
              = out (Part001.subscribe sub selector (Data VUndefined) c)
              /\ trace (Part001.subscribe sub selector (Data w) c)
                 = trace (Part001.subscribe sub selector (Data VUndefined) c))
        /\ (forall isEqual N,
              Part001.handler (mkListener sub (Data v) isEqual) N c
              = Part001.handler (mkListener sub (Data VUndefined) isEqual) N c)
        /\ (forall selector N,
              Part001.handler (mkListener sub selector (Data w)) N c
              = Part001.handler (mkListener sub selector (Data VUndefined)) N c)).
Proof.
  split; [intros; apply subscribe_bad_subscriber|].
  split; [repeat constructor|].
  split; [intros; now apply subscribe_bad_selector|].
  split; [intros; now apply subscribe_bad_isEqual|].
  split; [repeat split; discriminate|].
  split; [|intros c sub v w Hv Hw; now apply falsy_is_omitted].
  intros c f v w Hv Hw.
  rewrite subscribe_run; [reflexivity| |]; intros H; cbn in H; congruence.
Qed.

(** C3 as stated fails: [false] given as the selector and [0] as the equality
    policy are supplied and are not functions, yet the call returns, the
    subscription is registered and the subscriber is invoked. *)
Lemma C3_counterexample :
  let r := Part001.subscribe (Fn (Examples.listen 10)) (Data (VBoolean false))
             (Data (VNumber 0)) (Part001.cell VUndefined) in
  out r = Ret 0
  /\ List.length (pusu.subscribers (publication (st r))) = 1
  /\ trace r = [CallSubscriber 10 VUndefined].
Proof. repeat split. Qed.

(* ===================================================================== *)
(** * A subscriber of the whole state *)
(* ===================================================================== *)

Lemma handler_plain sub v c :
  Part001.handler (plain sub) v c
  = ((if strict_eq v (previousState c) then Ret tt else body sub v), c,
     (if strict_eq v (previousState c) then [] else [CallSubscriber (fid sub) v])).
Proof.
  change (plain sub) with (mkListener (Fn sub) (optional None) (optional None)).
  rewrite (@handler_run sub None None v c (previousState c) v
             (strict_eq v (previousState c)) eq_refl eq_refl eq_refl).
  reflexivity.
Qed.

(** An update of a container whose one subscription is a plain one. *)
Lemma update_plain c sub k t :
  pusu.subscribers (publication c) = [(k, plain sub)] ->
  st (Part001.update (Fn (pure t)) c)
  = set_currentState (body t (currentState c)) (set_previousState (currentState c) c)
  /\ trace (Part001.update (Fn (pure t)) c)
     = [CallReducer (fid t) (currentState c); Publish (body t (currentState c))]
       ++ (if strict_eq (body t (currentState c)) (currentState c)
           then []
           else [CallSubscriber (fid sub) (body t (currentState c))]).
Proof.
  intros Hsubs.
  unfold Part001.update, pusu.publish, bind, get, put, emit, lift, call_reducer.
  cbn -[strict_eq Part001.handler]. rewrite Hsubs.
  cbn -[strict_eq Part001.handler]. unfold bind. rewrite handler_plain.
  cbn -[strict_eq].
  destruct (strict_eq (body t (currentState c)) (currentState c)); cbn.
  - split; reflexivity.
  - destruct (body sub (body t (currentState c))) as [[]|e]; split; reflexivity.
Qed.

Lemma updates_plain sub k ts :
  forall c,
    pusu.subscribers (publication c) = [(k, plain sub)] ->
    invocations (fid sub) (snd (run (map (fun t => Update (Fn (pure t))) ts) c))
    = delivered (currentState c) ts.
Proof.
  induction ts as [|t ts IH]; intros c Hsubs; [reflexivity|].
  cbn [map run perform delivered].
  destruct (update_plain c t Hsubs) as [Hst Htr]. rewrite Hst, Htr.
  specialize (IH (set_currentState (body t (currentState c))
                    (set_previousState (currentState c) c)) Hsubs).
  destruct (run _ _) as [c' tr]. cbn [snd] in *.
  rewrite !invocations_app, IH. f_equal.
  destruct (strict_eq (body t (currentState c)) (currentState c)); cbn; [reflexivity|].
  now rewrite Nat.eqb_refl.
Qed.

Lemma delivered_all S0 ts : always_changes S0 ts = true -> delivered S0 ts = folded S0 ts.
Proof.
  revert S0. induction ts as [|t ts IH]; intros S0 H; [reflexivity|].
  cbn in H |- *. apply andb_prop in H. destruct H as [Hne H].
  apply negb_true_iff in Hne. rewrite Hne, (IH _ H). reflexivity.
Qed.

Lemma folded_length S0 ts : List.length (folded S0 ts) = List.length ts.
Proof. revert S0; induction ts; intros; simpl; auto. Qed.

(** C2, as the code has it. A subscriber registered with no selector and no
    equality policy is invoked once on subscribe with S0 and once for each
    update whose transform returns a state that is not [===] the state it
    received, with that state: n+1 times in all, with S0, t1(S0),
    t2(t1(S0)), ..., when every update changes the state. *)
Theorem C2_plain_subscriber_sees_every_change :
  forall (S0 : Val) (sub : fn Subscriber) (ts : list (fn (Val -> Val))),
    let calls := invocations (fid sub)
                   (snd (run (plain_session sub ts) (Part001.cell S0))) in
    calls = S0 :: delivered S0 ts
    /\ (always_changes S0 ts = true ->
        calls = S0 :: folded S0 ts /\ List.length calls = S (List.length ts)).
Proof.
  intros S0 sub ts calls.
  assert (Hcalls : calls = S0 :: delivered S0 ts).
  { subst calls. unfold plain_session. cbn [run perform].
    destruct (then_ret (Part001.subscribe (Fn sub) (Data VUndefined) (Data VUndefined))
                (Part001.cell S0)) as [Hst Htr].
    rewrite Hst, Htr.
    rewrite subscribe_run by (intros H; cbn in H; discriminate).
    cbv zeta. unfold st at 1, trace at 1. cbn [fst snd].
    pose proof (@updates_plain sub 0 ts
                  (register (mkListener (Fn sub) (Data VUndefined) (Data VUndefined))
                     (Part001.cell S0)) eq_refl) as IH.
    destruct (run _ _) as [c' tr]. cbn [snd] in *.
    cbn [app invocations]. rewrite Nat.eqb_refl. f_equal. exact IH. }
  split; [exact Hcalls|].
  intros Hch. rewrite Hcalls, (delivered_all _ _ Hch).
  split; [reflexivity|]. simpl. now rewrite folded_length.
Qed.

(** Three increments of 0, seen by a plain subscriber: 0, 1, 2, 3. *)
Lemma C2_witness :
  invocations 10
    (snd (run (plain_session (Examples.listen 10)
                 [Examples.plus_one; Examples.plus_one; Examples.plus_one])
            (Part001.cell (VNumber 0))))
  = [VNumber 0; VNumber 1; VNumber 2; VNumber 3].
Proof.
  exact (proj1 (proj2 (@C2_plain_subscriber_sees_every_change (VNumber 0)
                         (Examples.listen 10)
                         [Examples.plus_one; Examples.plus_one; Examples.plus_one])
                  eq_refl)).
Defined.

(** C2 as stated fails: starting from 0, one update with the transform
    s => s leaves a plain subscriber with its first invocation only, not
    with 1 + 1 of them. *)
Lemma C2_counterexample :
  let ts := [Examples.unchanged] in
  let calls := invocations 10
                 (snd (run (plain_session (Examples.listen 10) ts)
                         (Part001.cell (VNumber 0)))) in
  calls = [VNumber 0] /\ List.length calls <> S (List.length ts).
Proof. split; [reflexivity | discriminate]. Qed.

(* ===================================================================== *)
(** * The two state variables *)
(* ===================================================================== *)

Lemma run_app ops1 ops2 c :
  run (ops1 ++ ops2) c
  = (fst (run ops2 (fst (run ops1 c))),
     snd (run ops1 c) ++ snd (run ops2 (fst (run ops1 c)))).
Proof.
  revert c. induction ops1 as [|o ops1 IH]; intros c.
  - cbn. now destruct (run ops2 c).
  - cbn [app run]. rewrite IH.
    destruct (run ops1 (st (perform o c))) as [c1 t1]. cbn [fst snd].
    now rewrite app_assoc.
Qed.

Lemma update_previous reducer c :
  previousState (st (Part001.update reducer c)) = currentState c.
Proof.
  rewrite update_run. destruct reducer as [f|v]; [|reflexivity].
  destruct (body f (currentState c)); reflexivity.
Qed.

Lemma update_current reducer c :
  out (Part001.update reducer c) = Ret tt ->
  exists f, reducer = Fn f
            /\ body f (currentState c) = Ret (currentState (st (Part001.update reducer c))).
Proof.
  rewrite update_run. destruct reducer as [f|v]; [|discriminate].
  intros H. exists f. split; [reflexivity|].
  destruct (body f (currentState c)); [reflexivity | discriminate].
Qed.

Lemma subscribe_fields subscriber selector isEqual c :
  previousState (st (Part001.subscribe subscriber selector isEqual c)) = previousState c
  /\ currentState (st (Part001.subscribe subscriber selector isEqual c)) = currentState c.
Proof.
  destruct subscriber as [sub|x]; [|now rewrite subscribe_bad_subscriber].
  destruct (passes_or_not selector) as [Hs|(v & -> & Hv)];
    [|now rewrite subscribe_bad_selector].
  destruct (passes_or_not isEqual) as [He|(w & -> & Hw)];
    [|now rewrite subscribe_bad_isEqual].
  rewrite subscribe_run by assumption. cbv zeta.
  destruct selector as [g|v]; [destruct (body g (currentState c))|]; split; reflexivity.
Qed.

Lemma perform_fields o c :
  is_update o = false ->
  previousState (st (perform o c)) = previousState c
  /\ currentState (st (perform o c)) = currentState c.
Proof.
  destruct o as [r|subscriber selector isEqual|key]; intros H; [discriminate| |].
  - cbn [perform]. rewrite bind_run.
    destruct (subscribe_fields subscriber selector isEqual c) as [Hp Hc].
    destruct (out (Part001.subscribe subscriber selector isEqual c)); cbn; now split.
  - split; reflexivity.
Qed.

Lemma run_fields ops :
  forallb (fun o => negb (is_update o)) ops = true ->
  forall c,
    previousState (fst (run ops c)) = previousState c
    /\ currentState (fst (run ops c)) = currentState c.
Proof.
  induction ops as [|o ops IH]; intros H c; [split; reflexivity|].
  cbn [forallb] in H. apply andb_prop in H. destruct H as [Ho H].
  apply negb_true_iff in Ho.
  cbn [run]. specialize (IH H (st (perform o c))).
  destruct (run ops (st (perform o c))) as [c' t]. cbn [fst] in *.
  destruct (perform_fields o c Ho) as [Hp Hc]. destruct IH as [IHp IHc].
  split; congruence.
Qed.



(* ===================================================================== *)
(** * update *)
(* ===================================================================== *)

Lemma broadcast_only_calls_listeners hs t :
  Forall (fun ev => Exists (fun kh : nat * listener => listener_event (snd kh) ev) hs) t ->
  reducer_calls t = [] /\ published t = [].
Proof.
  induction 1 as [|ev t Hev _ IH]; [split; reflexivity|].
  destruct IH as [IHr IHp].
  apply Exists_exists in Hev. destruct Hev as (kh & _ & Hev).
  destruct ev; cbn in Hev; try contradiction; cbn; now split.
Qed.

Lemma broadcast_skips_strangers f hs t :
  Forall (fun ev => Exists (fun kh : nat * listener => listener_event (snd kh) ev) hs) t ->
  (forall kh, In kh hs -> subscriber_is f (snd kh) = false) ->
  invocations f t = [].
Proof.
  intros Ht Hnone. induction Ht as [|ev t Hev _ IH]; [reflexivity|].
  apply Exists_exists in Hev. destruct Hev as (kh & Hin & Hev).
  destruct ev; cbn in Hev; try contradiction; cbn; try exact IH.
  destruct Hev as (g & Hg & Hfid). specialize (Hnone kh Hin).
  unfold subscriber_is in Hnone. rewrite Hg, Hfid in Hnone. now rewrite Hnone.
Qed.

(** C7. [update] does not check its argument. Given a function, it calls it
    exactly once, with the current state; whatever the call throws, be it
    the function's own exception or the runtime's TypeError for a value that
    is not a function, is what [update] throws, and nothing is broadcast.
    The TypeError comes from the call itself, after previousState has
    already been assigned. *)
Theorem C7_update_calls_the_transform_once :
  forall (c : container) (reducer : arg Reducer),
    let r := Part001.update reducer c in
    (forall f, reducer = Fn f -> reducer_calls (trace r) = [(fid f, currentState c)])
    /\ (forall e,
          out (call_reducer reducer (currentState c) c) = Throw e ->
          out r = Throw e /\ published (trace r) = [])
    /\ (forall v,
          reducer = Data v ->
          out (call_reducer reducer (currentState c) c) = Throw (not_a_function "reducer")
          /\ r = (Throw (not_a_function "reducer"),
                  set_previousState (currentState c) c, [])).
Proof.
  intros c reducer r. subst r. rewrite update_run.
  split; [|split].
  - intros f ->. destruct (body f (currentState c)) as [next|e]; [|reflexivity].
    cbv zeta. unfold trace at 1; cbn [snd reducer_calls]. f_equal.
    eapply broadcast_only_calls_listeners, deliver_events.
  - intros e He. destruct reducer as [f|v].
    + unfold call_reducer in He. rewrite bind_run in He. cbn in He.
      destruct (body f (currentState c)); [discriminate|].
      injection He as <-. split; reflexivity.
    + cbn in He. injection He as <-. split; reflexivity.
  - intros v ->. split; reflexivity.
Qed.

(** C9. When the transform throws on the current state, [update] throws the
    same exception, broadcasts nothing, invokes no subscriber and leaves
    currentState and the subscriptions as they were; previousState, assigned
    before the transform ran, now holds the current state, and the state
    before it is gone. *)
Theorem C9_failed_update_overwrites_previous_state :
  forall (c : container) (f : fn Reducer) (e : exn),
    body f (currentState c) = Throw e ->
    let r := Part001.update (Fn f) c in
    out r = Throw e
    /\ published (trace r) = []
    /\ (forall k, invocations k (trace r) = [])
    /\ currentState (st r) = currentState c
    /\ publication (st r) = publication c
    /\ previousState (st r) = currentState c.
Proof.
  intros c f e He r. subst r. rewrite update_run, He.
  repeat split.
Qed.

(** After 0 became 1 the previous state is 0; a transform that throws then
    leaves the current state at 1 and makes the previous state 1 as well. *)
Lemma C9_witness :
  let c := st (Part001.update (Fn (pure Examples.plus_one)) (Part001.cell (VNumber 0))) in
  let r := Part001.update (Fn Examples.failing) c in
  previousState c = VNumber 0
  /\ out r = Throw (Thrown (VString "boom"))
  /\ currentState (st r) = VNumber 1
  /\ previousState (st r) = VNumber 1
  /\ invocations 10 (trace r) = [].
Proof.
  intros c r.
  destruct (@C9_failed_update_overwrites_previous_state c Examples.failing
              (Thrown (VString "boom")) eq_refl)
    as (Hout & _ & Hinv & Hcur & _ & Hprev).
  split; [reflexivity|]. split; [exact Hout|].
  split; [exact Hcur|]. split; [exact Hprev | exact (Hinv 10)].
Defined.

(* ===================================================================== *)
(** * unsubscribe *)
(* ===================================================================== *)

Lemma updates_skip_strangers f rs :
  forall c,
    (forall kh, In kh (pusu.subscribers (publication c)) -> subscriber_is f (snd kh) = false) ->
    invocations f (snd (run (map Update rs) c)) = [].
Proof.
  induction rs as [|r rs IH]; intros c Hnone; [reflexivity|].
  cbn [map run perform].
  assert (Hpub : publication (st (Part001.update r c)) = publication c).
  { rewrite update_run. destruct r as [g|v]; [|reflexivity].
    destruct (body g (currentState c)); reflexivity. }
  assert (Htr : invocations f (trace (Part001.update r c)) = []).
  { rewrite update_run. destruct r as [g|v]; [|reflexivity].
    destruct (body g (currentState c)); [|reflexivity].
    cbv zeta. unfold trace at 1; cbn [snd invocations].
    eapply broadcast_skips_strangers; [apply deliver_events | exact Hnone]. }
  specialize (IH (st (Part001.update r c))). rewrite Hpub in IH. specialize (IH Hnone).
  destruct (run (map Update rs) (st (Part001.update r c))) as [c' t]. cbn [snd] in *.
  now rewrite invocations_app, Htr, IH.
Qed.

Lemma filter_twice {A} (p : A -> bool) (l : list A) : filter p (filter p l) = filter p l.
Proof.
  induction l as [|x l IH]; [reflexivity|]. cbn.
  destruct (p x) eqn:E; cbn; rewrite ?E, IH; reflexivity.
Qed.

Lemma filter_keeps_all {A} (p : A -> bool) (l : list A) :
  Forall (fun x => p x = true) l -> filter p l = l.
Proof.
  induction 1 as [|x l Hx _ IH]; [reflexivity|]. cbn. now rewrite Hx, IH.
Qed.

Lemma perform_keys_below o c : keys_below c -> keys_below (st (perform o c)).
Proof.
  unfold keys_below. intros H. destruct o as [r|subscriber selector isEqual|key].
  - cbn [perform]. rewrite update_run. destruct r as [g|v]; [|exact H].
    destruct (body g (currentState c)); exact H.
  - cbn [perform]. rewrite bind_run.
    assert (Hs : keys_below (st (Part001.subscribe subscriber selector isEqual c))).
    { unfold keys_below.
      destruct subscriber as [sub|x]; [|now rewrite subscribe_bad_subscriber].
      destruct (passes_or_not selector) as [Hs|(v & -> & Hv)];
        [|now rewrite subscribe_bad_selector].
      destruct (passes_or_not isEqual) as [He|(w & -> & Hw)];
        [|now rewrite subscribe_bad_isEqual].
      rewrite subscribe_run by assumption. cbv zeta.
      assert (Hr : forall l, keys_below (register l c)).
      { intros l. unfold keys_below, register. cbn.
        apply Forall_app. split.
        - eapply Forall_impl; [|exact H]. cbn. intros; lia.
        - repeat constructor. }
      destruct selector as [g|v]; [destruct (body g (currentState c))|]; apply Hr. }
    destruct (out (Part001.subscribe subscriber selector isEqual c)); exact Hs.
  - cbn. induction H as [|kh l Hkh _ IH]; cbn; [constructor|].
    destruct (negb (Nat.eqb (fst kh) key)); [constructor|]; assumption.
Qed.

Lemma run_keys_below ops : forall c, keys_below c -> keys_below (fst (run ops c)).
Proof.
  induction ops as [|o ops IH]; intros c H; [exact H|].
  cbn [run]. specialize (IH _ (perform_keys_below o H)).
  now destruct (run ops (st (perform o c))).
Qed.

(** C6. Once the function [subscribe] returned has been called, no later
    [update] invokes the subscriber (registered through that handle alone);
    the call removes that registration and no other, and calling it again
    throws nothing and changes nothing. *)
Theorem C6_unsubscribe_stops_invocations :
  forall (S0 : Val) (before : list op) (sub : fn Subscriber) (selector : arg Selector)
         (isEqual : arg IsEqual) (key : nat) (between : list op)
         (later : list (arg Reducer)),
    let c := fst (run before (Part001.cell S0)) in
    let s := Part001.subscribe (Fn sub) selector isEqual c in
    let c2 := fst (run between (st s)) in
    let u1 := Part001.unsubscribe key c2 in
    let u2 := Part001.unsubscribe key (st u1) in
    out s = Ret key ->
    only_through (fid sub) key c2 = true ->
    out u1 = Ret tt
    /\ invocations (fid sub) (snd (run (map Update later) (st u1))) = []
    /\ pusu.subscribers (publication (st u1))
       = filter (fun kh => negb (Nat.eqb (fst kh) key)) (pusu.subscribers (publication c2))
    /\ pusu.subscribers (publication (st (Part001.unsubscribe key (st s))))
       = pusu.subscribers (publication c)
    /\ out u2 = Ret tt
    /\ st u2 = st u1
    /\ trace u2 = [].
Proof.
  intros S0 before sub selector isEqual key between later c s c2 u1 u2 Hkey Honly.
  split; [reflexivity|]. split; [|split; [reflexivity|split]].
  - apply updates_skip_strangers. intros [k l] Hin.
    subst u1. cbn in Hin. apply filter_In in Hin. destruct Hin as [Hin Hk].
    unfold only_through in Honly. rewrite forallb_forall in Honly.
    specialize (Honly (k, l) Hin). cbn [fst snd] in *.
    destruct (subscriber_is (fid sub) l); [|reflexivity].
    cbn in Honly. rewrite Honly in Hk. discriminate.
  - assert (Hc : keys_below c).
    { subst c. apply run_keys_below. constructor. }
    subst s.
    destruct (passes_or_not selector) as [Hs|(v & -> & Hv)];
      [|rewrite subscribe_bad_selector in Hkey by exact Hv; discriminate].
    destruct (passes_or_not isEqual) as [He|(w & -> & Hw)];
      [|rewrite subscribe_bad_isEqual in Hkey by assumption; discriminate].
    rewrite subscribe_run in Hkey |- * by assumption. cbv zeta in *.
    assert (Hk : key = pusu.next_key (publication c)).
    { destruct selector as [g|v]; [destruct (body g (currentState c))|];
        unfold out in Hkey; cbn in Hkey; try discriminate;
        match type of Hkey with
        | after_call _ ?o = _ => destruct o; cbn in Hkey; congruence
        end. }
    assert (Hst : forall (o : outcome nat) (t : list event),
               pusu.subscribers
                 (publication
                    (st (Part001.unsubscribe key
                           (st (o, register (mkListener (Fn sub) selector isEqual) c, t)))))
               = pusu.subscribers (publication c)).
    { intros o t. cbn. rewrite filter_app. cbn. rewrite Hk, Nat.eqb_refl. cbn.
      rewrite app_nil_r. apply filter_keeps_all.
      eapply Forall_impl; [|exact Hc]. cbn. intros kh Hlt.
      apply negb_true_iff, Nat.eqb_neq. lia. }
    destruct selector as [g|v]; [destruct (body g (currentState c))|]; apply Hst.
  - split; [reflexivity|]. split; [|reflexivity].
    subst u2 u1. unfold Part001.unsubscribe, st, bind, get, put. cbn.
    unfold pusu.unsubscribe, set_publication. cbn. now rewrite filter_twice.
Qed.

(** A plain subscriber of a counter, unsubscribed after the first update: it
    saw 0 and 1, and sees nothing of the two updates that follow. *)
Lemma C6_witness :
  let s := Part001.subscribe (Fn (Examples.listen 10)) (Data VUndefined) (Data VUndefined)
             (Part001.cell (VNumber 0)) in
  let r := run [Update (Fn (pure Examples.plus_one))] (st s) in
  let u1 := Part001.unsubscribe 0 (fst r) in
  invocations 10 (trace s ++ snd r) = [VNumber 0; VNumber 1]
  /\ invocations 10
       (snd (run (map Update [Fn (pure Examples.plus_one); Fn (pure Examples.plus_one)])
               (st u1))) = []
  /\ currentState
       (fst (run (map Update [Fn (pure Examples.plus_one); Fn (pure Examples.plus_one)])
               (st u1))) = VNumber 3
  /\ out (Part001.unsubscribe 0 (st u1)) = Ret tt.
Proof.
  intros s r u1.
  destruct (@C6_unsubscribe_stops_invocations (VNumber 0) [] (Examples.listen 10)
              (Data VUndefined) (Data VUndefined) 0
              [Update (Fn (pure Examples.plus_one))]
              [Fn (pure Examples.plus_one); Fn (pure Examples.plus_one)]
              eq_refl eq_refl)
    as (_ & Hnone & _ & _ & Hagain & _).
  split; [reflexivity|]. split; [exact Hnone|]. split; [reflexivity | exact Hagain].
Defined.

(* ===================================================================== *)
(** * The three variants *)
(* ===================================================================== *)

(** A handler reads previousState and nothing else of the container. *)
Lemma handler_reads_previous l v c1 c2 :
  previousState c1 = previousState c2 ->
  out (Part001.handler l v c1) = out (Part001.handler l v c2)
  /\ trace (Part001.handler l v c1) = trace (Part001.handler l v c2).
Proof.
  intros H. destruct l as [[s|x] [g|y] [h|z]]; unfold_run; cbn; rewrite H;
    split_run; split; reflexivity.
Qed.

Lemma deliver_reads_previous hs v c1 c2 :
  previousState c1 = previousState c2 ->
  out (pusu.deliver Part001.handler hs v c1) = out (pusu.deliver Part001.handler hs v c2)
  /\ trace (pusu.deliver Part001.handler hs v c1)
     = trace (pusu.deliver Part001.handler hs v c2).
Proof.
  intros H. induction hs as [|[k h] hs IH]; [split; reflexivity|].
  cbn [pusu.deliver]. rewrite !bind_run, !handler_frame.
  destruct (handler_reads_previous h v c1 c2 H) as [Ho Ht]. rewrite Ho, Ht.
  destruct IH as [IHo IHt].
  destruct (out (Part001.handler h v c2)); cbn; [|split; reflexivity].
  unfold out, trace in *. cbn. rewrite IHo, IHt. split; reflexivity.
Qed.

Lemma update_renamed n reducer c :
  Part001.update reducer (rename n c) = renamed n (Part001.update reducer c).
Proof.
  rewrite !update_run. destruct reducer as [f|v]; [|reflexivity].
  cbn [rename set_publication currentState].
  destruct (body f (currentState c)) as [next|e]; [|reflexivity].
  cbv zeta.
  destruct (@deliver_reads_previous (pusu.subscribers (publication c)) next
              (set_currentState next (set_previousState (currentState c) (rename n c)))
              (set_currentState next (set_previousState (currentState c) c)) eq_refl)
    as [Ho Ht].
  change (pusu.subscribers (publication (rename n c)))
    with (pusu.subscribers (publication c)).
  rewrite Ho, Ht. reflexivity.
Qed.

Lemma subscribe_renamed n subscriber selector isEqual c :
  Part001.subscribe subscriber selector isEqual (rename n c)
  = renamed n (Part001.subscribe subscriber selector isEqual c).
Proof.
  destruct subscriber as [sub|x]; [|now rewrite !subscribe_bad_subscriber].
  destruct (passes_or_not selector) as [Hs|(v & -> & Hv)];
    [|now rewrite !subscribe_bad_selector].
  destruct (passes_or_not isEqual) as [He|(w & -> & Hw)];
    [|now rewrite !subscribe_bad_isEqual].
  rewrite !subscribe_run by assumption. cbv zeta.
  destruct selector as [g|v]; cbn [rename set_publication currentState];
    [destruct (body g (currentState c))|]; reflexivity.
Qed.

Lemma index_subscribe_agrees subscriber selector areEqual c :
  (exists f, subscriber = Fn f) /\ passes selector /\ turned_down areEqual = true
  \/ IndexFirst.subscribe subscriber selector areEqual c
     = Part001.subscribe subscriber selector areEqual c.
Proof.
  destruct subscriber as [sub|x].
  2:{ right. unfold IndexFirst.subscribe, Part001.subscribe. cbn [typeof_arg].
      now rewrite typeof_not_function. }
  destruct (passes_or_not selector) as [Hs|(v & -> & Hv)].
  - destruct areEqual as [h|w].
    + right. unfold IndexFirst.subscribe, Part001.subscribe.
      rewrite (passes_check Hs). reflexivity.
    + destruct (truthy w) eqn:Hw.
      * left. split; [now exists sub|]. split; [exact Hs | exact Hw].
      * right. unfold IndexFirst.subscribe, Part001.subscribe.
        rewrite (passes_check Hs). cbn. rewrite Hw. reflexivity.
  - right. unfold IndexFirst.subscribe, Part001.subscribe. cbn.
    rewrite typeof_not_function, Hv. reflexivity.
Qed.

(** C10, as the code has it. The two variants of index.ts behave alike in
    every call. The variant of part_001 creates, updates and dispatches as
    they do, under the name [update] where they have [publish], and its
    [subscribe] differs from theirs in one answer: to an equality policy
    that is truthy and not a function, index.ts throws Error("areEqual must
    be a function.") and part_001 Error("isEqual must be a function."). The
    argument given to createPublication, an object in the first variant and
    a string in the other two, changes nothing but the name the publication
    carries. *)
Theorem C10_variants_agree_up_to_names :
  (forall S0,
      IndexSecond.cell S0 = Part001.cell S0
      /\ IndexFirst.cell S0
         = rename (VObject 0 [("name", VString "cell")]) (Part001.cell S0))
  /\ (forall reducer c,
        IndexFirst.publish reducer c = Part001.update reducer c
        /\ IndexSecond.publish reducer c = Part001.update reducer c)
  /\ (forall subscriber selector areEqual c,
        IndexFirst.subscribe subscriber selector areEqual c
        = IndexSecond.subscribe subscriber selector areEqual c)
  /\ (forall subscriber selector areEqual c,
        turned_down areEqual = false ->
        IndexFirst.subscribe subscriber selector areEqual c
        = Part001.subscribe subscriber selector areEqual c)
  /\ (forall f selector areEqual c,
        passes selector ->
        turned_down areEqual = true ->
        IndexFirst.subscribe (Fn f) selector areEqual c
        = (Throw (JsError "areEqual must be a function."), c, [])
        /\ Part001.subscribe (Fn f) selector areEqual c
           = (Throw (JsError "isEqual must be a function."), c, []))
  /\ (forall n c,
        (forall reducer,
            Part001.update reducer (rename n c) = renamed n (Part001.update reducer c))
        /\ (forall subscriber selector isEqual,
              Part001.subscribe subscriber selector isEqual (rename n c)
              = renamed n (Part001.subscribe subscriber selector isEqual c))
        /\ (forall key,
              Part001.unsubscribe key (rename n c)
              = renamed n (Part001.unsubscribe key c))).
Proof.
  split; [intros; split; reflexivity|].
  split; [intros; split; reflexivity|].
  split; [reflexivity|].
  split.
  { intros subscriber selector areEqual c Hok.
    destruct (index_subscribe_agrees subscriber selector areEqual c)
      as [(_ & _ & Hbad)|Heq]; [congruence | exact Heq]. }
  split.
  { intros f selector areEqual c Hs Hbad.
    destruct areEqual as [h|w]; [discriminate|]. cbn in Hbad.
    split; [|now apply subscribe_bad_isEqual].
    unfold IndexFirst.subscribe. rewrite (passes_check Hs). cbn.
    rewrite typeof_not_function, Hbad. reflexivity. }
  intros n c. split; [intros; apply update_renamed|].
  split; [intros; apply subscribe_renamed | reflexivity].
Qed.

(** C10 as stated fails: given [true] as the equality policy, the variants
    of index.ts and the variant of part_001 throw errors with different
    messages. *)
Lemma C10_counterexample :
  let first := IndexFirst.subscribe (Fn (Examples.listen 10)) (Data VUndefined)
                 (Data (VBoolean true)) (IndexFirst.cell VUndefined) in
  let third := Part001.subscribe (Fn (Examples.listen 10)) (Data VUndefined)
                 (Data (VBoolean true)) (Part001.cell VUndefined) in
  out first = Throw (JsError "areEqual must be a function.")
  /\ out third = Throw (JsError "isEqual must be a function.")
  /\ out first <> out third.
Proof. repeat split. discriminate. Qed.

(* ===================================================================== *)
(** * Configuration and instrumentation *)
(* ===================================================================== *)

Lemma logs_app t1 t2 : logs (t1 ++ t2) = logs t1 ++ logs t2.
Proof.
  induction t1 as [|ev t1 IH]; [reflexivity|].
  destruct ev; cbn; now rewrite ?IH.
Qed.

(* ===================================================================== *)
(** * Further properties of update and subscribe *)
(* ===================================================================== *)

Lemma update_forgets_previous reducer v c :
  Part001.update reducer (set_previousState v c) = Part001.update reducer c.
Proof.
  rewrite !update_run. destruct reducer as [f|x]; [|reflexivity].
  cbn [set_previousState currentState].
  destruct (body f (currentState c)); reflexivity.
Qed.

(** X1. [update] reads currentState and the subscriptions, never
    previousState. So an update that failed in its transform (the transform
    threw, or was not a function) leaves no mark on what follows: the next
    update returns, broadcasts and stores exactly what it would have without
    the failed one. *)
Theorem X1_failed_update_leaves_no_mark :
  forall (c : container) (bad : arg Reducer) (e : exn) (reducer : arg Reducer),
    out (call_reducer bad (currentState c) c) = Throw e ->
    Part001.update reducer (st (Part001.update bad c)) = Part001.update reducer c
    /\ (forall v, Part001.update reducer (set_previousState v c)
                  = Part001.update reducer c).
Proof.
  intros c bad e reducer Hbad. split; [|intros; apply update_forgets_previous].
  assert (Hst : st (Part001.update bad c) = set_previousState (currentState c) c).
  { rewrite update_run. destruct bad as [f|x]; [|reflexivity].
    unfold call_reducer in Hbad. rewrite bind_run in Hbad. cbn in Hbad.
    destruct (body f (currentState c)); [discriminate | reflexivity]. }
  rewrite Hst. apply update_forgets_previous.
Qed.

(** A transform that throws between 0 and the increment: the increment gives
    what it gives on the container that never saw the failure. *)
Lemma X1_witness :
  Part001.update (Fn (pure Examples.plus_one))
    (st (Part001.update (Fn Examples.failing) (Part001.cell (VNumber 0))))
  = Part001.update (Fn (pure Examples.plus_one)) (Part001.cell (VNumber 0)).
Proof.
  exact (proj1 (@X1_failed_update_leaves_no_mark (Part001.cell (VNumber 0))
                  (Fn Examples.failing) (Thrown (VString "boom"))
                  (Fn (pure Examples.plus_one)) eq_refl)).
Defined.



(** X3. [subscribe] registers with pusu before it makes the immediate
    invocation. When the arguments pass the checks and that invocation
    throws (in the selector or in the subscriber), [subscribe] throws, so
    the caller gets no unsubscribe function, and the subscription stays
    registered: on a container with no other subscription, the next update
    runs its handler. *)
Theorem X3_failed_subscribe_stays_registered :
  forall (c : container) (f : fn Subscriber) (selector : arg Selector)
         (isEqual : arg IsEqual) (e : exn),
    passes selector ->
    passes isEqual ->
    out (Part001.subscribe (Fn f) selector isEqual c) = Throw e ->
    let l := mkListener (Fn f) selector isEqual in
    let r := Part001.subscribe (Fn f) selector isEqual c in
    pusu.subscribers (publication (st r))
    = pusu.subscribers (publication c) ++ [(pusu.next_key (publication c), l)]
    /\ previousState (st r) = previousState c
    /\ currentState (st r) = currentState c
    /\ (forall (g : fn Reducer) (next : Val),
          pusu.subscribers (publication c) = [] ->
          body g (currentState c) = Ret next ->
          trace (Part001.update (Fn g) (st r))
          = CallReducer (fid g) (currentState c) :: Publish next
            :: trace (Part001.handler l next
                        (set_currentState next
                           (set_previousState (currentState c) (st r))))).
Proof.
  intros c f selector isEqual e Hs He Hout l r.
  assert (Hst : st r = register l c).
  { subst r. rewrite subscribe_run by assumption. cbv zeta.
    destruct selector as [g|v]; [destruct (body g (currentState c))|]; reflexivity. }
  rewrite Hst. split; [reflexivity|]. split; [reflexivity|]. split; [reflexivity|].
  intros g next Hnone Hg. rewrite update_run.
  change (currentState (register l c)) with (currentState c).
  rewrite Hg. cbv zeta.
  change (pusu.subscribers (publication (register l c)))
    with (pusu.subscribers (publication c) ++ [(pusu.next_key (publication c), l)]).
  rewrite Hnone. cbn [app pusu.deliver].
  match goal with
  | |- trace (_, _, _ :: _ :: trace ((?m ;; ret tt) ?k)) = _ =>
      destruct (then_ret m k) as [_ Htr]; rewrite Htr
  end.
  reflexivity.
Qed.

(** A subscriber that throws is refused an unsubscribe function and is
    called again by the next update. *)
Lemma X3_witness :
  let r := Part001.subscribe (Fn (MoreExamples.refuse 11)) (Data VUndefined)
             (Data VUndefined) (Part001.cell (VNumber 0)) in
  out r = Throw (Thrown (VString "no"))
  /\ List.length (pusu.subscribers (publication (st r))) = 1
  /\ invocations 11 (trace (Part001.update (Fn (pure Examples.plus_one)) (st r)))
     = [VNumber 1].
Proof.
  intros r.
  assert (Hp : forall B, passes (@Data B VUndefined)).
  { intros B H. cbn in H. discriminate. }
  destruct (@X3_failed_subscribe_stays_registered (Part001.cell (VNumber 0))
              (MoreExamples.refuse 11) (Data VUndefined) (Data VUndefined)
              (Thrown (VString "no")) (Hp _) (Hp _) eq_refl)
    as (Hsubs & _ & _ & Hnext).
  split; [reflexivity|]. split.
  - cbv zeta in Hsubs. fold r in Hsubs. rewrite Hsubs. reflexivity.
  - cbv zeta in Hnext. fold r in Hnext.
    rewrite (Hnext (pure Examples.plus_one) (VNumber 1) eq_refl eq_refl). reflexivity.
Defined.

Lemma selection_applied g x :
  apply_selector (option_map pure_selector g) x = Ret (selection g x).
Proof. destruct g; reflexivity. Qed.

Lemma held_equal_applied h a b :
  apply_policy (option_map pure_policy h) a b = Ret (held_equal h a b).
Proof. destruct h; reflexivity. Qed.

Lemma handler_selecting sub g h v c :
  st (Part001.handler (selecting sub g h) v c) = c
  /\ invocations (fid sub) (trace (Part001.handler (selecting sub g h) v c))
     = if held_equal h (selection g v) (selection g (previousState c))
       then []
       else [selection g v].
Proof.
  unfold selecting.
  rewrite (@handler_run sub (option_map pure_selector g) (option_map pure_policy h) v c
             _ _ _ (selection_applied g _) (selection_applied g _)
             (held_equal_applied h _ _)).
  split; [reflexivity|]. unfold trace. cbn [snd]. rewrite !invocations_app.
  assert (Hs : forall x,
             invocations (fid sub) (selector_events (option_map pure_selector g) x) = []).
  { intros x. destruct g; reflexivity. }
  assert (Hp : forall a b,
             invocations (fid sub) (policy_events (option_map pure_policy h) a b) = []).
  { intros a b. destruct h; reflexivity. }
  rewrite !Hs, Hp. cbn [app].
  destruct (held_equal h (selection g v) (selection g (previousState c)));
    [reflexivity|]. cbn. now rewrite Nat.eqb_refl.
Qed.

(** An update of a container whose one subscription is [selecting sub g h]. *)
Lemma update_selecting c sub g h k t :
  pusu.subscribers (publication c) = [(k, selecting sub g h)] ->
  st (Part001.update (Fn (pure t)) c)
  = set_currentState (body t (currentState c)) (set_previousState (currentState c) c)
  /\ invocations (fid sub) (trace (Part001.update (Fn (pure t)) c))
     = if held_equal h (selection g (body t (currentState c)))
            (selection g (currentState c))
       then []
       else [selection g (body t (currentState c))].
Proof.
  intros Hsubs. rewrite update_run. cbn [pure body]. cbv zeta.
  split; [reflexivity|]. rewrite Hsubs. cbn [pusu.deliver].
  unfold trace at 1. cbn [snd invocations].
  match goal with
  | |- invocations _ (trace ((?m ;; ret tt) ?s)) = _ =>
      destruct (then_ret m s) as [_ Htr]; rewrite Htr
  end.
  apply handler_selecting.
Qed.

Lemma updates_selecting sub g h k ts :
  forall c,
    pusu.subscribers (publication c) = [(k, selecting sub g h)] ->
    invocations (fid sub) (snd (run (map (fun t => Update (Fn (pure t))) ts) c))
    = notified g h (currentState c) ts
    /\ currentState (fst (run (map (fun t => Update (Fn (pure t))) ts) c))
       = fold_left (fun s t => body t s) ts (currentState c).
Proof.
  induction ts as [|t ts IH]; intros c Hsubs; [split; reflexivity|].
  cbn [map run perform notified fold_left].
  destruct (@update_selecting c sub g h k t Hsubs) as [Hst Htr]. rewrite Hst.
  specialize (IH (set_currentState (body t (currentState c))
                    (set_previousState (currentState c) c)) Hsubs).
  destruct (run _ _) as [c' tr]. cbn [fst snd] in *. destruct IH as [IHi IHc].
  split; [|exact IHc]. now rewrite invocations_app, Htr, IHi.
Qed.

Lemma session_selecting S0 sub g h ts :
  invocations (fid sub) (snd (run (selecting_session sub g h ts) (Part001.cell S0)))
  = selection g S0 :: notified g h S0 ts
  /\ currentState (fst (run (selecting_session sub g h ts) (Part001.cell S0)))
     = fold_left (fun s t => body t s) ts S0.
Proof.
  unfold selecting_session. cbn [run perform].
  destruct (then_ret (Part001.subscribe (Fn sub) (optional (option_map pure_selector g))
                        (optional (option_map pure_policy h)))
              (Part001.cell S0)) as [Hst Htr].
  rewrite Hst, Htr.
  assert (Hps : forall B (o : option (fn B)), passes (optional o)).
  { intros B [x|] H; [now exists x | cbn in H; discriminate]. }
  rewrite subscribe_run by apply Hps. cbv zeta.
  assert (Hreg : forall (o : outcome nat) t,
             st (o, register (selecting sub g h) (Part001.cell S0), t)
             = register (selecting sub g h) (Part001.cell S0)) by reflexivity.
  destruct (@updates_selecting sub g h 0 ts
              (register (selecting sub g h) (Part001.cell S0)) eq_refl) as [IHi IHc].
  destruct g as [g|]; cbn [optional option_map pure_selector body fid selection].
  - unfold st at 1 2, trace at 1. cbn [fst snd]. fold (pure_selector g).
    change (mkListener (Fn sub) (Fn (pure_selector g)) (optional (option_map pure_policy h)))
      with (selecting sub (Some g) h).
    destruct (run _ _) as [c' tr]. cbn [fst snd] in *.
    split; [|exact IHc]. cbn [app invocations]. rewrite Nat.eqb_refl. f_equal. exact IHi.
  - unfold st at 1 2, trace at 1. cbn [fst snd].
    change (mkListener (Fn sub) (Data VUndefined) (optional (option_map pure_policy h)))
      with (selecting sub None h).
    destruct (run _ _) as [c' tr]. cbn [fst snd] in *.
    split; [|exact IHc]. cbn [app invocations]. rewrite Nat.eqb_refl. f_equal. exact IHi.
Qed.

Lemma notified_length g h S0 ts : List.length (notified g h S0 ts) <= List.length ts.
Proof.
  revert S0. induction ts as [|t ts IH]; intros S0; [apply le_n|].
  cbn [notified]. rewrite length_app. specialize (IH (body t S0)).
  destruct (held_equal h (selection g (body t S0)) (selection g S0)); cbn; lia.
Qed.

(** X4. A subscriber registered with selector g and equality policy h
    (either may be left out) on a new container, followed by update(t1), ...,
    update(tn), is invoked with g(S0) and then, at each update, with the
    selection of the new state exactly when h does not hold it equal to the
    selection of the state just before that update; the comparison is
    between consecutive states, not with the value the subscriber was last
    given. It is invoked at most n+1 times, and the container ends in
    tn(...t1(S0)...). *)
Theorem X4_subscriber_sees_changes_between_consecutive_states :
  forall (S0 : Val) (sub : fn Subscriber) (g : option (fn (Val -> Val)))
         (h : option (fn (Val -> Val -> bool))) (ts : list (fn (Val -> Val))),
    let r := run (selecting_session sub g h ts) (Part001.cell S0) in
    invocations (fid sub) (snd r) = selection g S0 :: notified g h S0 ts
    /\ List.length (invocations (fid sub) (snd r)) <= S (List.length ts)
    /\ currentState (fst r) = fold_left (fun s t => body t s) ts S0.
Proof.
  intros S0 sub g h ts r. subst r.
  destruct (session_selecting S0 sub g h ts) as [Hi Hc].
  split; [exact Hi|]. split; [|exact Hc].
  rewrite Hi. cbn [List.length]. apply le_n_S, notified_length.
Qed.

(** With a policy that holds numbers equal when they differ by at most 1, a
    counter going 0, 1, 2, 3 is reported once, as 0: each step is held equal
    to the one before. *)
Lemma X4_witness :
  invocations 10
    (snd (run (selecting_session (Examples.listen 10) None (Some MoreExamples.close_by)
                 [Examples.plus_one; Examples.plus_one; Examples.plus_one])
            (Part001.cell (VNumber 0))))
  = [VNumber 0]
  /\ currentState
       (fst (run (selecting_session (Examples.listen 10) None (Some MoreExamples.close_by)
                    [Examples.plus_one; Examples.plus_one; Examples.plus_one])
               (Part001.cell (VNumber 0))))
     = VNumber 3.
Proof.
  destruct (@X4_subscriber_sees_changes_between_consecutive_states (VNumber 0)
              (Examples.listen 10) None (Some MoreExamples.close_by)
              [Examples.plus_one; Examples.plus_one; Examples.plus_one])
    as (Hi & _ & Hc).
  split; [exact Hi | exact Hc].
Defined.

Lemma strict_eq_same v : strict_eq v v = negb (is_NaN v).
Proof.
  destruct v; cbn;
    rewrite ?Bool.eqb_reflx, ?Z.eqb_refl, ?String.eqb_refl, ?Nat.eqb_refl; reflexivity.
Qed.

(** X5. With no selector and the default policy [a === b], an update whose
    transform returns the state it was given invokes the subscriber only
    when that state is NaN, the one value that is not [===] itself; for any
    other state, objects included, the subscriber hears nothing. *)
Theorem X5_unchanged_state_notifies_only_NaN :
  forall (S0 : Val) (sub : fn Subscriber) (t : fn (Val -> Val)),
    body t S0 = S0 ->
    invocations (fid sub) (snd (run (plain_session sub [t]) (Part001.cell S0)))
    = S0 :: (if is_NaN S0 then [S0] else []).
Proof.
  intros S0 sub t Ht.
  change (plain_session sub [t]) with (selecting_session sub None None [t]).
  destruct (session_selecting S0 sub None None [t]) as [Hi _]. rewrite Hi.
  cbn [notified selection held_equal]. rewrite Ht, strict_eq_same, app_nil_r.
  destruct (is_NaN S0); reflexivity.
Qed.

(** The state NaN, updated with s => s: the subscriber is invoked again. *)
Lemma X5_witness :
  invocations 10
    (snd (run (plain_session (Examples.listen 10) [Examples.unchanged])
            (Part001.cell VNaN)))
  = [VNaN; VNaN].
Proof.
  exact (@X5_unchanged_state_notifies_only_NaN VNaN (Examples.listen 10)
           Examples.unchanged eq_refl).
Defined.

(* ===================================================================== *)
(** * Creation, and what is never emitted *)
(* ===================================================================== *)

Lemma broadcast_logs_nothing hs t :
  Forall (fun ev => Exists (fun kh : nat * listener => listener_event (snd kh) ev) hs) t ->
  logs t = [].
Proof.
  induction 1 as [|ev t Hev _ IH]; [reflexivity|].
  apply Exists_exists in Hev. destruct Hev as (kh & _ & Hev).
  destruct ev; cbn in Hev; try contradiction; exact IH.
Qed.

Lemma perform_logs_nothing o c : logs (trace (perform o c)) = [].
Proof.
  destruct o as [reducer|subscriber selector isEqual|key]; cbn [perform].
  - rewrite update_run. destruct reducer as [f|x]; [|reflexivity].
    destruct (body f (currentState c)); [|reflexivity].
    cbv zeta. unfold trace at 1. cbn [snd logs].
    eapply broadcast_logs_nothing, deliver_events.
  - destruct (then_ret (Part001.subscribe subscriber selector isEqual) c) as [_ Htr].
    rewrite Htr.
    destruct subscriber as [sub|x]; [|now rewrite subscribe_bad_subscriber].
    destruct (passes_or_not selector) as [Hs|(v & -> & Hv)];
      [|now rewrite subscribe_bad_selector].
    destruct (passes_or_not isEqual) as [He|(w & -> & Hw)];
      [|now rewrite subscribe_bad_isEqual].
    rewrite subscribe_run by assumption. cbv zeta.
    destruct selector as [g|v]; [destruct (body g (currentState c))|]; reflexivity.
  - reflexivity.
Qed.

Lemma run_logs_nothing ops : forall c, logs (snd (run ops c)) = [].
Proof.
  induction ops as [|o ops IH]; intros c; [reflexivity|].
  cbn [run]. specialize (IH (st (perform o c))).
  destruct (run ops (st (perform o c))) as [c' t]. cbn [snd] in *.
  now rewrite logs_app, perform_logs_nothing, IH.
Qed.



(* ===================================================================== *)
(** * Subscribers that call back: subscribe *)
(* ===================================================================== *)

Lemma bind_get {St A} (k : St -> M St A) s : bind get k s = k s s.
Proof. unfold bind, get. now destruct (k s s) as [[o s2] t2]. Qed.

Lemma bind_put {St A} (s' : St) (k : unit -> M St A) s : bind (put s') k s = k tt s'.
Proof. unfold bind, put. now destruct (k tt s') as [[o s2] t2]. Qed.

Lemma bind_emit {St A} ev (k : unit -> M St A) s :
  bind (emit ev) k s = (out (k tt s), st (k tt s), ev :: trace (k tt s)).
Proof. unfold bind, emit. now destruct (k tt s) as [[o s2] t2]. Qed.

Lemma bind_lift {St A B} (o : outcome A) (k : A -> M St B) s :
  bind (lift o) k s = match o with Ret a => k a s | Throw e => (Throw e, s, []) end.
Proof. unfold bind, lift. destruct o as [a|e]; [|reflexivity]. now destruct (k a s) as [[o s2] t2]. Qed.

Lemma select_passes {St} (selector : arg Selector) x (s : St) :
  passes selector ->
  select selector x s
  = match selector with
    | Fn g => (body g x, s, [CallSelector (fid g) x])
    | Data _ => (Ret x, s, [])
    end.
Proof.
  intros Hs. destruct selector as [g|v]; [reflexivity|]. unfold select.
  destruct (truthy_arg (Data v)) eqn:E; [|reflexivity].
  destruct (Hs E) as [g Hg]; discriminate.
Qed.

Lemma bind_case {St A B} (m : M St A) (k : A -> M St B) s :
  bind m k s
  = match m s with
    | (Ret a, s1, t1) => (out (k a s1), st (k a s1), t1 ++ trace (k a s1))
    | (Throw e, s1, t1) => (Throw e, s1, t1)
    end.
Proof.
  unfold bind. destruct (m s) as [[[a|e] s1] t1]; [|reflexivity].
  now destruct (k a s1) as [[o s2] t2].
Qed.

Lemma call_subscriber_run nested sub v c :
  Reentrant.call_subscriber nested (Fn sub) v c
  = (match out (Reentrant.call_back nested (fst (body sub v)) c) with
     | Ret _ => snd (body sub v)
     | Throw e => Throw e
     end,
     st (Reentrant.call_back nested (fst (body sub v)) c),
     CallSubscriber (fid sub) v :: trace (Reentrant.call_back nested (fst (body sub v)) c)).
Proof.
  unfold Reentrant.call_subscriber. rewrite bind_emit, bind_case.
  destruct (Reentrant.call_back nested (fst (body sub v)) c) as [[[a|e] s1] t1];
    [|reflexivity].
  unfold lift, out, st, trace. cbn [fst snd]. now rewrite app_nil_r.
Qed.

(** A call of [subscribe] whose arguments pass the three checks, for a
    subscriber that may call back. *)
Lemma subscribe_run_reentrant depth c sub selector isEqual :
  passes selector -> passes isEqual ->
  Reentrant.subscribe depth (Fn sub) selector isEqual c
  = let c' := Reentrant.register (Reentrant.mkListener (Fn sub) selector isEqual) c in
    let key := pusu.next_key (Reentrant.publication c) in
    match (match selector with
           | Fn g => body g (Reentrant.currentState c)
           | Data _ => Ret (Reentrant.currentState c)
           end) with
    | Ret selected =>
        let k := Reentrant.call_back (Reentrant.nested depth) (fst (body sub selected)) c' in
        (match out k with
         | Ret _ => after_call key (snd (body sub selected))
         | Throw e => Throw e
         end, st k,
         Reentrant.selecting_events selector (Reentrant.currentState c)
         ++ CallSubscriber (fid sub) selected :: trace k)
    | Throw e =>
        (Throw e, c', Reentrant.selecting_events selector (Reentrant.currentState c))
    end.
Proof.
  intros Hs He. unfold Reentrant.subscribe, Reentrant.subscribe_with.
  rewrite (passes_check Hs), (passes_check He). cbn [typeof_arg].
  change (String.eqb "function" "function") with true. cbn [negb].
  rewrite bind_get. cbn [pusu.subscribe]. rewrite bind_put, bind_get.
  rewrite bind_case, select_passes by exact Hs.
  cbv zeta.
  change (Reentrant.set_publication _ c)
    with (Reentrant.register (Reentrant.mkListener (Fn sub) selector isEqual) c).
  set (c' := Reentrant.register (Reentrant.mkListener (Fn sub) selector isEqual) c).
  change (Reentrant.currentState c') with (Reentrant.currentState c).
  assert (Hk : forall x,
             (Reentrant.call_subscriber (Reentrant.nested depth) (Fn sub) x ;;
              ret (pusu.next_key (Reentrant.publication c))) c'
             = (match out (Reentrant.call_back (Reentrant.nested depth)
                             (fst (body sub x)) c') with
                | Ret _ => after_call (pusu.next_key (Reentrant.publication c))
                             (snd (body sub x))
                | Throw e => Throw e
                end,
                st (Reentrant.call_back (Reentrant.nested depth) (fst (body sub x)) c'),
                CallSubscriber (fid sub) x
                :: trace (Reentrant.call_back (Reentrant.nested depth)
                            (fst (body sub x)) c'))).
  { intros x. rewrite bind_case, call_subscriber_run.
    destruct (out (Reentrant.call_back (Reentrant.nested depth) (fst (body sub x)) c'));
      [|reflexivity].
    destruct (snd (body sub x)) as [[]|e]; cbn; rewrite ?app_nil_r; reflexivity. }
  destruct selector as [g|v]; cbn [Reentrant.selecting_events].
  - destruct (body g (Reentrant.currentState c)) as [x|e]; [|reflexivity].
    rewrite Hk. reflexivity.
  - rewrite Hk. reflexivity.
Qed.

Lemma subscribe_returned depth subscriber selector isEqual c key :
  out (Reentrant.subscribe depth subscriber selector isEqual c) = Ret key ->
  (exists sub, subscriber = Fn sub) /\ passes selector /\ passes isEqual.
Proof.
  unfold Reentrant.subscribe, Reentrant.subscribe_with. intros H.
  destruct subscriber as [sub|x].
  2:{ cbn [typeof_arg] in H. rewrite typeof_not_function in H. discriminate. }
  cbn [typeof_arg] in H. change (String.eqb "function" "function") with true in H.
  cbn [negb] in H.
  split; [now exists sub|].
  destruct (passes_or_not selector) as [Hs|(v & -> & Hv)].
  2:{ cbn [typeof_arg truthy_arg] in H. rewrite typeof_not_function, Hv in H.
      discriminate. }
  split; [exact Hs|]. rewrite (passes_check Hs) in H.
  destruct (passes_or_not isEqual) as [He|(w & -> & Hw)]; [exact He|].
  cbn [typeof_arg truthy_arg] in H. rewrite typeof_not_function, Hw in H. discriminate.
Qed.




(* ===================================================================== *)
(** * Subscribers that call back: a later subscription *)
(* ===================================================================== *)

Lemma stateless_ret {St A} (a : A) : stateless (@ret St A a).
Proof. exists (Ret a), []. reflexivity. Qed.

Lemma stateless_call_reducer {St} r v : stateless (@call_reducer St r v).
Proof.
  destruct r as [g|x].
  - exists (body g v), [CallReducer (fid g) v]. intros s.
    unfold call_reducer. rewrite bind_emit. reflexivity.
  - exists (Throw (not_a_function "reducer")), []. reflexivity.
Qed.

Lemma stateless_select {St} selector x : stateless (@select St selector x).
Proof.
  unfold select. destruct (truthy_arg selector); [|apply stateless_ret].
  destruct selector as [g|v].
  - exists (body g x), [CallSelector (fid g) x]. intros s.
    unfold call_selector. rewrite bind_emit. reflexivity.
  - exists (Throw (not_a_function "selector")), []. reflexivity.
Qed.

Lemma stateless_compare {St} isEqual a b : stateless (@compare St isEqual a b).
Proof.
  unfold compare. destruct (truthy_arg isEqual); [|apply stateless_ret].
  destruct isEqual as [g|v].
  - exists (body g a b), [CallIsEqual (fid g) a b]. intros s.
    unfold call_isEqual. rewrite bind_emit. reflexivity.
  - exists (Throw (not_a_function "fnIsEqual")), []. reflexivity.
Qed.

Section Late.
Variable l : Reentrant.listener.
Variable f : nat.

Lemma follows_stateless {A} (m : Reentrant.JS A) : stateless m -> follows_all l f m m.
Proof.
  intros (o & t & Hm) c. rewrite !Hm. repeat split.
Qed.

Lemma follows_bind {A B} (m' m : Reentrant.JS A) (k' k : A -> Reentrant.JS B) :
  follows_all l f m' m ->
  (forall a, follows_all l f (k' a) (k a)) ->
  follows_all l f (bind m' k') (bind m k).
Proof.
  intros Hm Hk c. rewrite !bind_run. destruct (Hm c) as (Ho & Hs & Ht).
  rewrite Ho. destruct (out (m c)) as [a|e].
  - rewrite Hs. destruct (Hk a (st (m c))) as (Ho' & Hs' & Ht').
    split; [exact Ho'|]. split; [exact Hs'|].
    change (invocations f (trace (m' (Reentrant.register l c))
                           ++ trace (k' a (Reentrant.register l (st (m c)))))
            = invocations f (trace (m c) ++ trace (k a (st (m c))))).
    now rewrite !invocations_app, Ht, Ht'.
  - split; [reflexivity|]. split; [exact Hs | exact Ht].
Qed.

Lemma follows_emit_other ev :
  invocations f [ev] = [] -> follows_all l f (emit ev) (emit ev).
Proof. intros Hev c. unfold follows, emit, out, st, trace. cbn [fst snd]. repeat split. Qed.

Lemma follows_emit ev : follows_all l f (emit ev) (emit ev).
Proof. intros c. repeat split. Qed.

Section Nested.
Variable nested : arg Reducer -> Reentrant.JS unit.
Hypothesis nested_follows : forall r, follows_all l f (nested r) (nested r).

Lemma follows_call_back rs :
  follows_all l f (Reentrant.call_back nested rs) (Reentrant.call_back nested rs).
Proof.
  induction rs as [|r rs IH]; cbn [Reentrant.call_back].
  - apply follows_stateless, stateless_ret.
  - apply follows_bind; [apply nested_follows | intros _; exact IH].
Qed.

Lemma follows_call_subscriber sub v :
  follows_all l f (Reentrant.call_subscriber nested sub v)
    (Reentrant.call_subscriber nested sub v).
Proof.
  destruct sub as [g|x]; cbn [Reentrant.call_subscriber].
  - apply follows_bind; [apply follows_emit | intros _].
    apply follows_bind; [apply follows_call_back | intros _].
    apply follows_stateless. exists (snd (body g v)), []. reflexivity.
  - apply follows_stateless. exists (Throw (not_a_function "subscriber")), [].
    reflexivity.
Qed.

Lemma follows_handler h v :
  follows_all l f (Reentrant.handler nested h v) (Reentrant.handler nested h v).
Proof.
  intros c. unfold Reentrant.handler. rewrite !bind_get.
  change (Reentrant.previousState (Reentrant.register l c))
    with (Reentrant.previousState c).
  generalize (Reentrant.previousState c) as p. intros p. revert c.
  apply follows_bind; [apply follows_stateless, stateless_select | intros prev].
  apply follows_bind; [apply follows_stateless, stateless_select | intros curr].
  apply follows_bind; [apply follows_stateless, stateless_compare | intros unchanged].
  destruct (negb unchanged); [apply follows_call_subscriber|].
  apply follows_stateless, stateless_ret.
Qed.
End Nested.
End Late.

Lemma bind_ret {St A B} (a : A) (k : A -> M St B) s : bind (ret a) k s = k a s.
Proof. unfold bind, ret. now destruct (k a s) as [[o s2] t2]. Qed.

Section LateUpdate.
Variable late : fn Reentrant.Subscriber.
Variable f : nat.
Hypothesis late_returns : forall v, body late v = ([], Ret tt).
Hypothesis late_other : Nat.eqb (fid late) f = false.

(** The handler of the late subscription returns, leaves the container as it
    is and invokes nobody but [late]. *)
Lemma late_handler nested v c :
  out (Reentrant.handler nested (plain_reentrant late) v c) = Ret tt
  /\ st (Reentrant.handler nested (plain_reentrant late) v c) = c
  /\ invocations f (trace (Reentrant.handler nested (plain_reentrant late) v c)) = [].
Proof.
  unfold Reentrant.handler, plain_reentrant, select, compare.
  cbn [Reentrant.l_selector Reentrant.l_isEqual Reentrant.l_subscriber truthy_arg truthy].
  rewrite bind_get, !bind_ret.
  destruct (negb (strict_eq v (Reentrant.previousState c))); [|repeat split].
  rewrite call_subscriber_run, late_returns. cbn. rewrite late_other. repeat split.
Qed.

Section Nested.
Variable nested : arg Reducer -> Reentrant.JS unit.
Hypothesis nested_follows :
  forall r, follows_all (plain_reentrant late) f (nested r) (nested r).

Lemma follows_deliver hs k v :
  follows_all (plain_reentrant late) f
    (pusu.deliver (Reentrant.handler nested) (hs ++ [(k, plain_reentrant late)]) v)
    (pusu.deliver (Reentrant.handler nested) hs v).
Proof.
  induction hs as [|[k' h] hs IH]; cbn [app pusu.deliver].
  - intros c. rewrite bind_run.
    destruct (late_handler nested v (Reentrant.register (plain_reentrant late) c))
      as (Ho & Hs & Ht).
    rewrite Ho, Hs. split; [reflexivity|]. split; [reflexivity|].
    change (invocations f
              (trace (Reentrant.handler nested (plain_reentrant late) v
                        (Reentrant.register (plain_reentrant late) c)) ++ [])
            = []).
    now rewrite app_nil_r.
  - apply follows_bind; [now apply follows_handler | intros _; exact IH].
Qed.

Lemma follows_update reducer :
  follows_all (plain_reentrant late) f
    (Reentrant.update_with nested reducer) (Reentrant.update_with nested reducer).
Proof.
  intros c. unfold Reentrant.update_with.
  rewrite !bind_get, !bind_put, !bind_get.
  destruct (@stateless_call_reducer Reentrant.container reducer (Reentrant.currentState c))
    as (o & t & Hr).
  change (Reentrant.currentState
            (Reentrant.set_previousState
               (Reentrant.currentState (Reentrant.register (plain_reentrant late) c))
               (Reentrant.register (plain_reentrant late) c)))
    with (Reentrant.currentState c).
  change (Reentrant.currentState
            (Reentrant.set_previousState (Reentrant.currentState c) c))
    with (Reentrant.currentState c).
  rewrite !bind_case, !Hr. destruct o as [next|e]; [|repeat split].
  rewrite !bind_get, !bind_put, !bind_get. unfold pusu.publish. rewrite !bind_emit.
  set (s0 := Reentrant.set_currentState next
               (Reentrant.set_previousState (Reentrant.currentState c) c)).
  change (pusu.deliver (Reentrant.handler nested)
            (pusu.subscribers
               (Reentrant.publication
                  (Reentrant.set_currentState next
                     (Reentrant.set_previousState
                        (Reentrant.currentState
                           (Reentrant.register (plain_reentrant late) c))
                        (Reentrant.register (plain_reentrant late) c)))))
            (Reentrant.currentState
               (Reentrant.set_currentState next
                  (Reentrant.set_previousState
                     (Reentrant.currentState
                        (Reentrant.register (plain_reentrant late) c))
                     (Reentrant.register (plain_reentrant late) c))))
            (Reentrant.set_currentState next
               (Reentrant.set_previousState
                  (Reentrant.currentState (Reentrant.register (plain_reentrant late) c))
                  (Reentrant.register (plain_reentrant late) c))))
    with (pusu.deliver (Reentrant.handler nested)
            (pusu.subscribers (Reentrant.publication c)
             ++ [(pusu.next_key (Reentrant.publication c), plain_reentrant late)])
            next (Reentrant.register (plain_reentrant late) s0)).
  change (pusu.deliver (Reentrant.handler nested)
            (pusu.subscribers (Reentrant.publication s0)) (Reentrant.currentState s0) s0)
    with (pusu.deliver (Reentrant.handler nested)
            (pusu.subscribers (Reentrant.publication c)) next s0).
  destruct (@follows_deliver (pusu.subscribers (Reentrant.publication c))
              (pusu.next_key (Reentrant.publication c)) next s0) as (Ho & Hs & Ht).
  revert Ho Hs Ht.
  generalize (pusu.deliver (Reentrant.handler nested)
                (pusu.subscribers (Reentrant.publication c)
                 ++ [(pusu.next_key (Reentrant.publication c), plain_reentrant late)])
                next (Reentrant.register (plain_reentrant late) s0)) as d'.
  generalize (pusu.deliver (Reentrant.handler nested)
                (pusu.subscribers (Reentrant.publication c)) next s0) as d.
  intros [[o s] tr] [[o' s'] tr']. unfold follows, out, st, trace. cbn [fst snd].
  intros Ho Hs Ht. split; [exact Ho|]. split; [exact Hs|].
  rewrite !invocations_app. f_equal. cbn [invocations]. exact Ht.
Qed.
End Nested.

Lemma follows_nested depth :
  forall r, follows_all (plain_reentrant late) f
              (Reentrant.nested depth r) (Reentrant.nested depth r).
Proof.
  induction depth as [|d IH]; intros r; cbn [Reentrant.nested].
  - apply follows_stateless. exists (Throw Reentrant.stack_overflow), []. reflexivity.
  - apply follows_update. exact IH.
Qed.
End LateUpdate.



(* ===================================================================== *)
(** * Subscribers that call nothing back *)
(* ===================================================================== *)

(** For subscribers that call nothing back, the two embeddings of part_001
    do the same. *)
Lemma handler_embed nested l v c :
  Reentrant.handler nested (embed_listener l) v (embed c)
  = embed_run (Part001.handler l v c).
Proof.
  destruct l as [[s|x] [g|y] [h|z]];
    unfold Reentrant.handler, Reentrant.call_subscriber, embed_run, embed_listener;
    unfold_run; split_run; reflexivity.
Qed.

Lemma deliver_embed nested hs v c :
  pusu.deliver (Reentrant.handler nested)
    (map (fun kh => (fst kh, embed_listener (snd kh))) hs) v (embed c)
  = embed_run (pusu.deliver Part001.handler hs v c).
Proof.
  induction hs as [|[k h] hs IH]; [reflexivity|].
  cbn [map pusu.deliver fst snd]. rewrite !bind_case, handler_embed.
  pose proof (handler_frame h v c) as Hf.
  destruct (Part001.handler h v c) as [[o s] t].
  unfold st in Hf; cbn in Hf; subst s.
  unfold embed_run at 1. cbn [out st trace fst snd].
  destruct o as [[]|e]; [|reflexivity]. rewrite IH.
  destruct (pusu.deliver Part001.handler hs v c) as [[o' s'] t']. reflexivity.
Qed.

Lemma update_embed depth reducer c :
  Reentrant.update depth reducer (embed c) = embed_run (Part001.update reducer c).
Proof.
  rewrite update_run. unfold Reentrant.update, Reentrant.update_with.
  rewrite bind_get, bind_put, bind_get, bind_case.
  destruct reducer as [f|x]; [|reflexivity].
  unfold call_reducer. rewrite bind_emit.
  cbn [Reentrant.currentState Reentrant.set_previousState embed lift out st trace fst snd].
  destruct (body f (currentState c)) as [next|e]; [|reflexivity].
  rewrite bind_get, bind_put, bind_get. unfold pusu.publish. rewrite bind_emit.
  change (pusu.deliver (Reentrant.handler (Reentrant.nested depth)) _ _ _)
    with (pusu.deliver (Reentrant.handler (Reentrant.nested depth))
            (map (fun kh => (fst kh, embed_listener (snd kh)))
               (pusu.subscribers (publication c)))
            next
            (embed (set_currentState next (set_previousState (currentState c) c)))).
  rewrite deliver_embed. cbv zeta.
  pose proof (deliver_frame (pusu.subscribers (publication c)) next
                (set_currentState next (set_previousState (currentState c) c))) as Hf.
  destruct (pusu.deliver Part001.handler (pusu.subscribers (publication c)) next
              (set_currentState next (set_previousState (currentState c) c)))
    as [[o s] t].
  unfold st in Hf; cbn in Hf; subst s. reflexivity.
Qed.

Lemma register_embed l c :
  Reentrant.register (embed_listener l) (embed c) = embed (register l c).
Proof.
  unfold Reentrant.register, register, embed, Reentrant.set_publication. cbn.
  now rewrite map_app.
Qed.

Lemma subscribe_embed depth subscriber selector isEqual c :
  Reentrant.subscribe depth (embed_arg subscriber) selector isEqual (embed c)
  = embed_run (Part001.subscribe subscriber selector isEqual c).
Proof.
  destruct subscriber as [sub|x].
  2:{ rewrite subscribe_bad_subscriber.
      unfold Reentrant.subscribe, Reentrant.subscribe_with. cbn [embed_arg typeof_arg].
      now rewrite typeof_not_function. }
  destruct (passes_or_not selector) as [Hs|(v & -> & Hv)].
  2:{ rewrite subscribe_bad_selector by exact Hv.
      unfold Reentrant.subscribe, Reentrant.subscribe_with. cbn.
      now rewrite typeof_not_function, Hv. }
  destruct (passes_or_not isEqual) as [He|(w & -> & Hw)].
  2:{ rewrite subscribe_bad_isEqual by assumption.
      unfold Reentrant.subscribe, Reentrant.subscribe_with.
      rewrite (passes_check Hs). cbn. now rewrite typeof_not_function, Hw. }
  cbn [embed_arg].
  rewrite subscribe_run_reentrant, subscribe_run by assumption. cbv zeta.
  change (Reentrant.mkListener (Fn (as_reentrant sub)) selector isEqual)
    with (embed_listener (mkListener (Fn sub) selector isEqual)).
  rewrite register_embed.
  change (Reentrant.currentState (embed c)) with (currentState c).
  change (pusu.next_key (Reentrant.publication (embed c)))
    with (pusu.next_key (publication c)).
  destruct selector as [g|v]; cbn [Reentrant.selecting_events];
    [destruct (body g (currentState c)) as [x|e]; [|reflexivity]|];
    cbn [as_reentrant body fst snd Reentrant.call_back]; reflexivity.
Qed.
